(** * Agente Financeiro: the financial core of [streamlit_app.py]

    A shallow embedding of the three functions that make up the numeric core
    of the application,

      - [processar_dados_streamlit]  (the profile builder),
      - [analisar_fluxo_caixa]       (the cash-flow stage),
      - [planejar_reserva_emergencia] (the emergency-fund stage),

    together with the Python primitives they rely on.

    Modelling choices.

    - Amounts are Python [float]s in the source.  They are modelled by exact
      rationals [Q]; the one non-finite value the source ever writes,
      [float('inf')], is a constructor of its own ([Inf]).  Python's [==],
      [<] and [>] on numbers are [Qeq], [Qlt] on [Q].  Rationals do not
      round and do not overflow, so the statements are kept to what does not
      depend on that: an equation names the operations the code performs, on
      the operands and in the order the code uses, and is never reassociated;
      the other facts about amounts are comparisons that rounding preserves.
    - A Python [dict] is an association list in insertion order without
      repeated keys ([Dict.wf]).  Insertion order is kept because [sum]
      folds the values from the left in exactly that order.
    - The stages mutate the object they receive; here each stage maps the
      record before the call to the record after it.
    - The only operation of the core that can raise is [/]
      ([ZeroDivisionError]); it lives in the [result] monad.

    Around the core the file also embeds the debt part of the form in
    [main], the prompt of [gerar_analise_ia], [gerar_feedback_comportamento_ia],
    [gerar_relatorio_mensal_simulado] and [gerar_planilha_google_sheets]
    with its three tables.

    - What [:.2f], [:.1f] and [:.2%] print is a parameter ([Formato]).
    - The language model and the sheets client are parameters too: a call
      takes the state of the remote world and returns a value or an
      exception together with a new state.  Messages sent to the page with
      [st.error] and the like are collected in a list. *)

From Stdlib Require Import String Ascii List Bool Arith ZArith QArith Qminmax Lqa Lia.
From Stdlib Require Import DecimalString.
Import ListNotations.

Open Scope string_scope.
Open Scope list_scope.
Open Scope Q_scope.

(** ** Python primitives *)

(** Exceptions of the core and the monad that threads them. *)
Inductive exn : Type :=
| ZeroDivisionError.

Inductive result (A : Type) : Type :=
| Ok (a : A)
| Raise (e : exn).
Arguments Ok {A} a.
Arguments Raise {A} e.

Definition bind {A B : Type} (m : result A) (k : A -> result B) : result B :=
  match m with
  | Ok a => k a
  | Raise e => Raise e
  end.

Notation "x <- m ;; k" := (bind m (fun x => k))
  (at level 61, m at next level, right associativity).

(** A float that may be [float('inf')]. *)
Inductive pyfloat : Type :=
| Fin (q : Q)
| Inf.

(** [x > y] on numbers. *)
Definition gt (x y : Q) : bool := negb (Qle_bool x y).

(** [x < y] on numbers. *)
Definition lt (x y : Q) : bool := negb (Qle_bool y x).

(** [max(a, b)]: the first argument is kept unless the second is strictly
    greater. *)
Definition py_max (a b : Q) : Q := if gt b a then b else a.

(** [sum(xs)]: a left fold that starts from [0]. *)
Definition sum (xs : list Q) : Q := fold_left Qplus xs 0.

(** [a / b]: raises on a zero divisor. *)
Definition truediv (a b : Q) : result Q :=
  if Qeq_bool b 0 then Raise ZeroDivisionError else Ok (a / b).

(** [s.lower()], on the UTF-8 encoding of [s].  The definition is exact for
    the code points of Basic Latin and of the Latin-1 Supplement (lead byte
    0xC3), which cover every string the form can submit; other code points
    are left as they are. *)
Definition ascii_lower (c : ascii) : ascii :=
  let n := nat_of_ascii c in
  if ((65 <=? n) && (n <=? 90))%nat then ascii_of_nat (n + 32) else c.

Definition latin1_lower (c : ascii) : ascii :=
  let n := nat_of_ascii c in
  if ((128 <=? n) && (n <=? 158) && negb (n =? 151))%nat
  then ascii_of_nat (n + 32) else c.

Fixpoint lower (s : string) : string :=
  match s with
  | EmptyString => EmptyString
  | String c r =>
      if Ascii.eqb c (ascii_of_nat 195) then
        match r with
        | EmptyString => String c EmptyString
        | String c2 r2 => String c (String (latin1_lower c2) (lower r2))
        end
      else String (ascii_lower c) (lower r)
  end.

(** [x in xs] for a list of strings. *)
Definition str_in (x : string) (xs : list string) : bool :=
  existsb (String.eqb x) xs.

(** [a == b] where either side may be [None]. *)
Definition opt_str_eqb (a b : option string) : bool :=
  match a, b with
  | Some x, Some y => String.eqb x y
  | None, None => true
  | _, _ => false
  end.

(** Dictionaries with string keys. *)
Module Dict.

Definition dict (V : Type) : Type := list (string * V).

Definition items {V} (d : dict V) : list (string * V) := d.
Definition keys {V} (d : dict V) : list string := map fst d.
Definition values {V} (d : dict V) : list V := map snd d.

(** [d.get(k)] *)
Fixpoint get {V} (k : string) (d : dict V) : option V :=
  match d with
  | [] => None
  | (k', v) :: r => if String.eqb k k' then Some v else get k r
  end.

(** [d.get(k, dflt)] *)
Definition get_default {V} (k : string) (dflt : V) (d : dict V) : V :=
  match get k d with
  | Some v => v
  | None => dflt
  end.

(** [d[k] = v]: a present key keeps its position, a new key goes last. *)
Fixpoint set {V} (k : string) (v : V) (d : dict V) : dict V :=
  match d with
  | [] => [(k, v)]
  | (k', v') :: r =>
      if String.eqb k k' then (k', v) :: r else (k', v') :: set k v r
  end.

(** [{key(x): val(x) for x in xs if cond(x)}] *)
Definition comp {X V} (key : X -> string) (val : X -> V) (cond : X -> bool)
    (xs : list X) : dict V :=
  fold_left (fun acc x => if cond x then set (key x) (val x) acc else acc)
    xs [].

(** What every Python dictionary satisfies: no key occurs twice. *)
Definition wf {V} (d : dict V) : Prop := NoDup (keys d).

End Dict.
Import Dict.

(** ** The user's data: class [DadosFinanceirosUsuario] *)

(** One element of [dividas]. *)
Record Divida : Type := {
  tipo : string;
  valor_original : Q;
  valor_restante : Q;
  taxa_juros_anual : Q;
  parcelas_totais : Z;
  parcelas_restantes : Z
}.

Record DadosFinanceirosUsuario : Type := {
  email_pessoal_usuario : string;
  renda_liquida_mensal : Q;
  fonte_renda : string;
  gastos_por_categoria : dict Q;
  patrimonio : dict Q;
  dividas : list Divida;
  dependentes : Z;
  estabilidade_financeira : string;
  (* cash-flow analysis *)
  total_gastos_mensais : Q;
  total_gastos_essenciais : Q;
  classificacao_gastos : dict (dict string);
  status_fluxo_caixa : string;
  saldo_mensal : Q;
  (* emergency-fund planning *)
  valor_reserva_emergencia_ideal : Q;
  meses_reserva_sugerido : Z;
  saldo_mensal_para_reserva : Q;
  tempo_para_montar_reserva_meses : pyfloat;
  meta_mensal_reserva : Q;
  (* report and feedback *)
  relatorio_mensal_simulado : string;
  feedback_ia_comportamento : string
}.

(** [__init__] *)
Definition init : DadosFinanceirosUsuario := {|
  email_pessoal_usuario := "";
  renda_liquida_mensal := 0;
  fonte_renda := "";
  gastos_por_categoria := [];
  patrimonio := [];
  dividas := [];
  dependentes := 0%Z;
  estabilidade_financeira := "";
  total_gastos_mensais := 0;
  total_gastos_essenciais := 0;
  classificacao_gastos := [];
  status_fluxo_caixa := "";
  saldo_mensal := 0;
  valor_reserva_emergencia_ideal := 0;
  meses_reserva_sugerido := 0%Z;
  saldo_mensal_para_reserva := 0;
  tempo_para_montar_reserva_meses := Fin 0;
  meta_mensal_reserva := 0;
  relatorio_mensal_simulado := "";
  feedback_ia_comportamento := ""
|}.

(** Attribute assignment [dados_usuario.f = x], one function per attribute
    the two stages write. *)
Definition set_total_gastos_mensais (x : Q)
    (d : DadosFinanceirosUsuario) : DadosFinanceirosUsuario := {|
  email_pessoal_usuario := email_pessoal_usuario d;
  renda_liquida_mensal := renda_liquida_mensal d;
  fonte_renda := fonte_renda d;
  gastos_por_categoria := gastos_por_categoria d;
  patrimonio := patrimonio d;
  dividas := dividas d;
  dependentes := dependentes d;
  estabilidade_financeira := estabilidade_financeira d;
  total_gastos_mensais := x;
  total_gastos_essenciais := total_gastos_essenciais d;
  classificacao_gastos := classificacao_gastos d;
  status_fluxo_caixa := status_fluxo_caixa d;
  saldo_mensal := saldo_mensal d;
  valor_reserva_emergencia_ideal := valor_reserva_emergencia_ideal d;
  meses_reserva_sugerido := meses_reserva_sugerido d;
  saldo_mensal_para_reserva := saldo_mensal_para_reserva d;
  tempo_para_montar_reserva_meses := tempo_para_montar_reserva_meses d;
  meta_mensal_reserva := meta_mensal_reserva d;
  relatorio_mensal_simulado := relatorio_mensal_simulado d;
  feedback_ia_comportamento := feedback_ia_comportamento d
|}.

Definition set_total_gastos_essenciais (x : Q)
    (d : DadosFinanceirosUsuario) : DadosFinanceirosUsuario := {|
  email_pessoal_usuario := email_pessoal_usuario d;
  renda_liquida_mensal := renda_liquida_mensal d;
  fonte_renda := fonte_renda d;
  gastos_por_categoria := gastos_por_categoria d;
  patrimonio := patrimonio d;
  dividas := dividas d;
  dependentes := dependentes d;
  estabilidade_financeira := estabilidade_financeira d;
  total_gastos_mensais := total_gastos_mensais d;
  total_gastos_essenciais := x;
  classificacao_gastos := classificacao_gastos d;
  status_fluxo_caixa := status_fluxo_caixa d;
  saldo_mensal := saldo_mensal d;
  valor_reserva_emergencia_ideal := valor_reserva_emergencia_ideal d;
  meses_reserva_sugerido := meses_reserva_sugerido d;
  saldo_mensal_para_reserva := saldo_mensal_para_reserva d;
  tempo_para_montar_reserva_meses := tempo_para_montar_reserva_meses d;
  meta_mensal_reserva := meta_mensal_reserva d;
  relatorio_mensal_simulado := relatorio_mensal_simulado d;
  feedback_ia_comportamento := feedback_ia_comportamento d
|}.

Definition set_status_fluxo_caixa (x : string)
    (d : DadosFinanceirosUsuario) : DadosFinanceirosUsuario := {|
  email_pessoal_usuario := email_pessoal_usuario d;
  renda_liquida_mensal := renda_liquida_mensal d;
  fonte_renda := fonte_renda d;
  gastos_por_categoria := gastos_por_categoria d;
  patrimonio := patrimonio d;
  dividas := dividas d;
  dependentes := dependentes d;
  estabilidade_financeira := estabilidade_financeira d;
  total_gastos_mensais := total_gastos_mensais d;
  total_gastos_essenciais := total_gastos_essenciais d;
  classificacao_gastos := classificacao_gastos d;
  status_fluxo_caixa := x;
  saldo_mensal := saldo_mensal d;
  valor_reserva_emergencia_ideal := valor_reserva_emergencia_ideal d;
  meses_reserva_sugerido := meses_reserva_sugerido d;
  saldo_mensal_para_reserva := saldo_mensal_para_reserva d;
  tempo_para_montar_reserva_meses := tempo_para_montar_reserva_meses d;
  meta_mensal_reserva := meta_mensal_reserva d;
  relatorio_mensal_simulado := relatorio_mensal_simulado d;
  feedback_ia_comportamento := feedback_ia_comportamento d
|}.

Definition set_saldo_mensal (x : Q)
    (d : DadosFinanceirosUsuario) : DadosFinanceirosUsuario := {|
  email_pessoal_usuario := email_pessoal_usuario d;
  renda_liquida_mensal := renda_liquida_mensal d;
  fonte_renda := fonte_renda d;
  gastos_por_categoria := gastos_por_categoria d;
  patrimonio := patrimonio d;
  dividas := dividas d;
  dependentes := dependentes d;
  estabilidade_financeira := estabilidade_financeira d;
  total_gastos_mensais := total_gastos_mensais d;
  total_gastos_essenciais := total_gastos_essenciais d;
  classificacao_gastos := classificacao_gastos d;
  status_fluxo_caixa := status_fluxo_caixa d;
  saldo_mensal := x;
  valor_reserva_emergencia_ideal := valor_reserva_emergencia_ideal d;
  meses_reserva_sugerido := meses_reserva_sugerido d;
  saldo_mensal_para_reserva := saldo_mensal_para_reserva d;
  tempo_para_montar_reserva_meses := tempo_para_montar_reserva_meses d;
  meta_mensal_reserva := meta_mensal_reserva d;
  relatorio_mensal_simulado := relatorio_mensal_simulado d;
  feedback_ia_comportamento := feedback_ia_comportamento d
|}.

Definition set_valor_reserva_emergencia_ideal (x : Q)
    (d : DadosFinanceirosUsuario) : DadosFinanceirosUsuario := {|
  email_pessoal_usuario := email_pessoal_usuario d;
  renda_liquida_mensal := renda_liquida_mensal d;
  fonte_renda := fonte_renda d;
  gastos_por_categoria := gastos_por_categoria d;
  patrimonio := patrimonio d;
  dividas := dividas d;
  dependentes := dependentes d;
  estabilidade_financeira := estabilidade_financeira d;
  total_gastos_mensais := total_gastos_mensais d;
  total_gastos_essenciais := total_gastos_essenciais d;
  classificacao_gastos := classificacao_gastos d;
  status_fluxo_caixa := status_fluxo_caixa d;
  saldo_mensal := saldo_mensal d;
  valor_reserva_emergencia_ideal := x;
  meses_reserva_sugerido := meses_reserva_sugerido d;
  saldo_mensal_para_reserva := saldo_mensal_para_reserva d;
  tempo_para_montar_reserva_meses := tempo_para_montar_reserva_meses d;
  meta_mensal_reserva := meta_mensal_reserva d;
  relatorio_mensal_simulado := relatorio_mensal_simulado d;
  feedback_ia_comportamento := feedback_ia_comportamento d
|}.

Definition set_meses_reserva_sugerido (x : Z)
    (d : DadosFinanceirosUsuario) : DadosFinanceirosUsuario := {|
  email_pessoal_usuario := email_pessoal_usuario d;
  renda_liquida_mensal := renda_liquida_mensal d;
  fonte_renda := fonte_renda d;
  gastos_por_categoria := gastos_por_categoria d;
  patrimonio := patrimonio d;
  dividas := dividas d;
  dependentes := dependentes d;
  estabilidade_financeira := estabilidade_financeira d;
  total_gastos_mensais := total_gastos_mensais d;
  total_gastos_essenciais := total_gastos_essenciais d;
  classificacao_gastos := classificacao_gastos d;
  status_fluxo_caixa := status_fluxo_caixa d;
  saldo_mensal := saldo_mensal d;
  valor_reserva_emergencia_ideal := valor_reserva_emergencia_ideal d;
  meses_reserva_sugerido := x;
  saldo_mensal_para_reserva := saldo_mensal_para_reserva d;
  tempo_para_montar_reserva_meses := tempo_para_montar_reserva_meses d;
  meta_mensal_reserva := meta_mensal_reserva d;
  relatorio_mensal_simulado := relatorio_mensal_simulado d;
  feedback_ia_comportamento := feedback_ia_comportamento d
|}.

Definition set_saldo_mensal_para_reserva (x : Q)
    (d : DadosFinanceirosUsuario) : DadosFinanceirosUsuario := {|
  email_pessoal_usuario := email_pessoal_usuario d;
  renda_liquida_mensal := renda_liquida_mensal d;
  fonte_renda := fonte_renda d;
  gastos_por_categoria := gastos_por_categoria d;
  patrimonio := patrimonio d;
  dividas := dividas d;
  dependentes := dependentes d;
  estabilidade_financeira := estabilidade_financeira d;
  total_gastos_mensais := total_gastos_mensais d;
  total_gastos_essenciais := total_gastos_essenciais d;
  classificacao_gastos := classificacao_gastos d;
  status_fluxo_caixa := status_fluxo_caixa d;
  saldo_mensal := saldo_mensal d;
  valor_reserva_emergencia_ideal := valor_reserva_emergencia_ideal d;
  meses_reserva_sugerido := meses_reserva_sugerido d;
  saldo_mensal_para_reserva := x;
  tempo_para_montar_reserva_meses := tempo_para_montar_reserva_meses d;
  meta_mensal_reserva := meta_mensal_reserva d;
  relatorio_mensal_simulado := relatorio_mensal_simulado d;
  feedback_ia_comportamento := feedback_ia_comportamento d
|}.

Definition set_tempo_para_montar_reserva_meses (x : pyfloat)
    (d : DadosFinanceirosUsuario) : DadosFinanceirosUsuario := {|
  email_pessoal_usuario := email_pessoal_usuario d;
  renda_liquida_mensal := renda_liquida_mensal d;
  fonte_renda := fonte_renda d;
  gastos_por_categoria := gastos_por_categoria d;
  patrimonio := patrimonio d;
  dividas := dividas d;
  dependentes := dependentes d;
  estabilidade_financeira := estabilidade_financeira d;
  total_gastos_mensais := total_gastos_mensais d;
  total_gastos_essenciais := total_gastos_essenciais d;
  classificacao_gastos := classificacao_gastos d;
  status_fluxo_caixa := status_fluxo_caixa d;
  saldo_mensal := saldo_mensal d;
  valor_reserva_emergencia_ideal := valor_reserva_emergencia_ideal d;
  meses_reserva_sugerido := meses_reserva_sugerido d;
  saldo_mensal_para_reserva := saldo_mensal_para_reserva d;
  tempo_para_montar_reserva_meses := x;
  meta_mensal_reserva := meta_mensal_reserva d;
  relatorio_mensal_simulado := relatorio_mensal_simulado d;
  feedback_ia_comportamento := feedback_ia_comportamento d
|}.

Definition set_meta_mensal_reserva (x : Q)
    (d : DadosFinanceirosUsuario) : DadosFinanceirosUsuario := {|
  email_pessoal_usuario := email_pessoal_usuario d;
  renda_liquida_mensal := renda_liquida_mensal d;
  fonte_renda := fonte_renda d;
  gastos_por_categoria := gastos_por_categoria d;
  patrimonio := patrimonio d;
  dividas := dividas d;
  dependentes := dependentes d;
  estabilidade_financeira := estabilidade_financeira d;
  total_gastos_mensais := total_gastos_mensais d;
  total_gastos_essenciais := total_gastos_essenciais d;
  classificacao_gastos := classificacao_gastos d;
  status_fluxo_caixa := status_fluxo_caixa d;
  saldo_mensal := saldo_mensal d;
  valor_reserva_emergencia_ideal := valor_reserva_emergencia_ideal d;
  meses_reserva_sugerido := meses_reserva_sugerido d;
  saldo_mensal_para_reserva := saldo_mensal_para_reserva d;
  tempo_para_montar_reserva_meses := tempo_para_montar_reserva_meses d;
  meta_mensal_reserva := x;
  relatorio_mensal_simulado := relatorio_mensal_simulado d;
  feedback_ia_comportamento := feedback_ia_comportamento d
|}.

(** ** The profile builder: [processar_dados_streamlit] *)

(** The table [classificacao_padrao] of the builder. *)
Definition classificacao_padrao : dict (dict string) := [
  ("Moradia (Aluguel)", [("tipo", "Essencial"); ("natureza", "Fixo")]);
  ("Alimentação", [("tipo", "Essencial"); ("natureza", "Variável")]);
  ("Transporte (Carro, Transporte Público, Uber...)",
     [("tipo", "Essencial"); ("natureza", "Variável")]);
  ("Saúde", [("tipo", "Essencial"); ("natureza", "Variável")]);
  ("Educação", [("tipo", "Essencial"); ("natureza", "Fixo")]);
  ("Lazer", [("tipo", "Supérfluo"); ("natureza", "Variável")]);
  ("Assinaturas", [("tipo", "Supérfluo"); ("natureza", "Fixo")]);
  ("Contas de Consumo (água, luz, gás)",
     [("tipo", "Essencial"); ("natureza", "Variável")]);
  ("Outros (Cabelo, Estética...)",
     [("tipo", "Variável"); ("natureza", "Variável")])
].

(** The second argument of [classificacao_padrao.get]. *)
Definition classificacao_ausente : dict string :=
  [("tipo", "Variável"); ("natureza", "Variável")].

Definition processar_dados_streamlit
    (email : string) (renda : Q) (fonte : string) (ndependentes : Z)
    (estabilidade : string) (gastos_dict patrimonio_dict : dict Q)
    (dividas_list : list Divida) : DadosFinanceirosUsuario :=
  let gastos :=
    comp fst snd (fun kv => gt (snd kv) 0) (items gastos_dict) in
  {|
    email_pessoal_usuario := email;
    renda_liquida_mensal := renda;
    fonte_renda := fonte;
    dependentes := ndependentes;
    estabilidade_financeira := estabilidade;
    gastos_por_categoria := gastos;
    patrimonio :=
      comp fst snd (fun kv => gt (snd kv) 0) (items patrimonio_dict);
    dividas := dividas_list;
    classificacao_gastos :=
      comp (fun cat => cat)
        (fun cat => get_default cat classificacao_ausente classificacao_padrao)
        (fun _ => true) (keys gastos);
    total_gastos_mensais := total_gastos_mensais init;
    total_gastos_essenciais := total_gastos_essenciais init;
    status_fluxo_caixa := status_fluxo_caixa init;
    saldo_mensal := saldo_mensal init;
    valor_reserva_emergencia_ideal := valor_reserva_emergencia_ideal init;
    meses_reserva_sugerido := meses_reserva_sugerido init;
    saldo_mensal_para_reserva := saldo_mensal_para_reserva init;
    tempo_para_montar_reserva_meses := tempo_para_montar_reserva_meses init;
    meta_mensal_reserva := meta_mensal_reserva init;
    relatorio_mensal_simulado := relatorio_mensal_simulado init;
    feedback_ia_comportamento := feedback_ia_comportamento init
  |}.

(** ** The cash-flow stage: [analisar_fluxo_caixa] *)

(** The condition of the generator,
    [classificacao_gastos.get(categoria, {}).get('tipo') == 'Essencial']. *)
Definition tipo_essencial (d : DadosFinanceirosUsuario) (categoria : string)
    : bool :=
  opt_str_eqb
    (get "tipo"
       (get_default (V:=dict string) categoria [] (classificacao_gastos d)))
    (Some "Essencial").

Definition analisar_fluxo_caixa (d : DadosFinanceirosUsuario)
    : DadosFinanceirosUsuario :=
  let d := set_total_gastos_mensais (sum (values (gastos_por_categoria d))) d in
  let d :=
    set_total_gastos_essenciais
      (sum (map snd (filter (fun kv => tipo_essencial d (fst kv))
                       (items (gastos_por_categoria d))))) d in
  let d :=
    set_saldo_mensal (renda_liquida_mensal d - total_gastos_mensais d) d in
  if gt (saldo_mensal d) 0 then set_status_fluxo_caixa "Superavitário" d
  else if lt (saldo_mensal d) 0 then set_status_fluxo_caixa "Deficitário" d
  else set_status_fluxo_caixa "Equilibrado" d.

(** ** The emergency-fund stage: [planejar_reserva_emergencia] *)

Definition planejar_reserva_emergencia (d : DadosFinanceirosUsuario)
    : result DadosFinanceirosUsuario :=
  let meses_sugerido :=
    if str_in (lower (estabilidade_financeira d)) ["autônomo"; "informal"]
    then 12%Z else 6%Z in
  let d := set_meses_reserva_sugerido meses_sugerido d in
  let d :=
    set_valor_reserva_emergencia_ideal
      (total_gastos_essenciais d * inject_Z meses_sugerido) d in
  let d := set_saldo_mensal_para_reserva (py_max 0 (saldo_mensal d)) d in
  if gt (saldo_mensal_para_reserva d) 0 then
    d <- (if gt (saldo_mensal_para_reserva d) 0 then
            t <- truediv (valor_reserva_emergencia_ideal d)
                   (saldo_mensal_para_reserva d) ;;
            Ok (set_tempo_para_montar_reserva_meses (Fin t) d)
          else
            Ok (set_tempo_para_montar_reserva_meses Inf d)) ;;
    Ok (set_meta_mensal_reserva (saldo_mensal_para_reserva d) d)
  else
    let d := set_tempo_para_montar_reserva_meses Inf d in
    Ok (set_meta_mensal_reserva 0 d).

(** ** The form and the driver *)

(** The options of the stability select box and the expense categories the
    form asks for. *)
Definition opcoes_estabilidade : list string :=
  ["CLT"; "Autônomo"; "Informal"; "Empresário"; "Aposentado"; "Outro"].

Definition categorias_sugeridas : list string := [
  "Moradia (Aluguel)"; "Alimentação";
  "Transporte (Carro, Transporte Público, Uber...)"; "Saúde"; "Educação";
  "Lazer"; "Assinaturas"; "Contas de Consumo (água, luz, gás)";
  "Outros (Cabelo, Estética...)"
].

(** The two calls of [main] after the form is submitted. *)
Definition executar_analise (d : DadosFinanceirosUsuario)
    : result DadosFinanceirosUsuario :=
  planejar_reserva_emergencia (analisar_fluxo_caixa d).

(** ** Reference definitions for the statements *)

(** The sum of a list of amounts, by recursion on the list. *)
Fixpoint soma (xs : list Q) : Q :=
  match xs with
  | [] => 0
  | x :: r => x + soma r
  end.


(** The condition both comprehensions of the builder filter by. *)
Definition positivo (kv : string * Q) : bool := gt (snd kv) 0.

(** What the cash-flow stage calls essential, read off the table. *)
Definition essencial_na_tabela (categoria : string) : bool :=
  opt_str_eqb
    (get "tipo"
       (get_default categoria classificacao_ausente classificacao_padrao))
    (Some "Essencial").


(** The attributes the form fills in, and the two text attributes that later
    steps write: everything the two stages are not meant to touch. *)
Definition mesmas_entradas (a b : DadosFinanceirosUsuario) : Prop :=
  email_pessoal_usuario a = email_pessoal_usuario b /\
  renda_liquida_mensal a = renda_liquida_mensal b /\
  fonte_renda a = fonte_renda b /\
  dependentes a = dependentes b /\
  estabilidade_financeira a = estabilidade_financeira b /\
  gastos_por_categoria a = gastos_por_categoria b /\
  classificacao_gastos a = classificacao_gastos b /\
  patrimonio a = patrimonio b /\
  dividas a = dividas b /\
  relatorio_mensal_simulado a = relatorio_mensal_simulado b /\
  feedback_ia_comportamento a = feedback_ia_comportamento b.

(** The record the planning stage leaves behind, written without the
    exception monad; [planejar_reserva_emergencia_Ok] shows that the stage
    returns exactly this. *)
Definition plano_da_reserva (d : DadosFinanceirosUsuario)
    : DadosFinanceirosUsuario :=
  let n :=
    if str_in (lower (estabilidade_financeira d)) ["autônomo"; "informal"]
    then 12%Z else 6%Z in
  let ideal := total_gastos_essenciais d * inject_Z n in
  let disponivel := py_max 0 (saldo_mensal d) in
  set_meta_mensal_reserva (if gt disponivel 0 then disponivel else 0)
    (set_tempo_para_montar_reserva_meses
       (if gt disponivel 0 then Fin (ideal / disponivel) else Inf)
       (set_saldo_mensal_para_reserva disponivel
          (set_valor_reserva_emergencia_ideal ideal
             (set_meses_reserva_sugerido n d)))).

(** ** Sample submissions *)

Definition exemplo_gastos : dict Q :=
  [("Moradia (Aluguel)", 1500); ("Alimentação", 500); ("Lazer", 0);
   ("Pets", 2000)].

Definition exemplo_patrimonio : dict Q :=
  [("Imóveis", 0); ("Investimentos", 300)].

(** Income 5000, essential expenses 2000, balance 1000. *)
Definition exemplo : DadosFinanceirosUsuario :=
  processar_dados_streamlit "ana@example.com" 5000 "Professora" 1 "CLT"
    exemplo_gastos exemplo_patrimonio [].

(** Income 3000, expenses 3500. *)
Definition exemplo_deficit : DadosFinanceirosUsuario :=
  processar_dados_streamlit "" 3000 "Motorista" 0 "Autônomo"
    [("Alimentação", 3500)] [] [].

(** ** The debt part of the form, in [main] *)

(** [bool(s)] for a string. *)
Definition truthy (s : string) : bool := negb (String.eqb s "").

(** The options of the debt select box. *)
Definition opcoes_divida : list string := [
  "Selecione o tipo da dívida"; "Cartão de Crédito"; "Empréstimo Pessoal";
  "Financiamento Imobiliário"; "Financiamento de Veículo"; "Cheque Especial";
  "Crédito Consignado"; "Outro"
].

(** The value of [divida_tipo] once the select box returned [selecionado];
    [especificado] is what the text box returns, which is only consulted
    under ["Outro"]. *)
Definition divida_tipo (selecionado especificado : string) : string :=
  if String.eqb selecionado "Outro" then
    if truthy especificado then especificado else "Outro (não especificado)"
  else if String.eqb selecionado "Selecione o tipo da dívida" then ""
  else selecionado.

(** The value of [dividas_list] when the form is submitted.  The five numbers
    are what the number inputs return; they are only consulted when the type
    of the debt is accepted. *)
Definition dividas_list (selecionado especificado : string)
    (divida_valor_original divida_valor_restante divida_taxa_juros_anual : Q)
    (divida_parcelas_totais divida_parcelas_restantes : Z) : list Divida :=
  let divida_tipo := divida_tipo selecionado especificado in
  let dividas_list := [] in
  if truthy divida_tipo
     && negb (String.eqb divida_tipo "Outro (não especificado)") then
    if gt divida_valor_restante 0 then
      dividas_list ++ [{|
        tipo := divida_tipo;
        valor_original := divida_valor_original;
        valor_restante := divida_valor_restante;
        taxa_juros_anual := divida_taxa_juros_anual / 100;
        parcelas_totais := divida_parcelas_totais;
        parcelas_restantes := divida_parcelas_restantes
      |}]
    else dividas_list
  else dividas_list.

(** ** The tables of [gerar_planilha_google_sheets] *)

(** A cell of a worksheet: the Python value put in a row. *)
Inductive celula : Type :=
| CTexto (s : string)
| CNumero (q : Q)
| CInteiro (z : Z)
| CFloat (f : pyfloat).

Definition tabela : Type := list (list celula).

(** [str(n)] for an integer, as an f-string prints it. *)
Definition str_int (n : Z) : string := NilZero.string_of_int (Z.to_int n).

(** [x == y] on floats that may be infinite. *)
Definition float_eqb (x y : pyfloat) : bool :=
  match x, y with
  | Fin a, Fin b => Qeq_bool a b
  | Inf, Inf => true
  | _, _ => false
  end.

(** The rows written to the sheet "Resumo Geral". *)
Definition resumo_data (d : DadosFinanceirosUsuario) : tabela := [
  [CTexto "Item"; CTexto "Valor/Detalhe"];
  [CTexto "Renda Líquida Mensal"; CNumero (renda_liquida_mensal d)];
  [CTexto "Total de Gastos Mensais"; CNumero (total_gastos_mensais d)];
  [CTexto "Total de Gastos Essenciais"; CNumero (total_gastos_essenciais d)];
  [CTexto "Saldo Mensal"; CNumero (saldo_mensal d)];
  [CTexto "Status do Fluxo de Caixa"; CTexto (status_fluxo_caixa d)];
  [CTexto ""; CTexto ""];
  [CTexto "--- Reserva de Emergência ---"; CTexto ""];
  [CTexto "Valor Ideal da Reserva";
   CNumero (valor_reserva_emergencia_ideal d)];
  [CTexto ("(" ++ str_int (meses_reserva_sugerido d)
           ++ " meses de gastos essenciais)")%string; CTexto ""];
  [CTexto "Saldo Mensal para Reserva"; CNumero (saldo_mensal_para_reserva d)];
  [CTexto "Tempo Estimado para Montar (meses)";
   if negb (float_eqb (tempo_para_montar_reserva_meses d) Inf)
   then CFloat (tempo_para_montar_reserva_meses d)
   else CTexto "Saldo insuficiente"];
  [CTexto "Meta Mensal Sugerida"; CNumero (meta_mensal_reserva d)];
  [CTexto ""; CTexto ""];
  [CTexto "--- Relatório Mensal Simulado ---"; CTexto ""];
  [CTexto (relatorio_mensal_simulado d)];
  [CTexto ""; CTexto ""]
].

Definition gastos_header : list celula :=
  [CTexto "Categoria"; CTexto "Valor (R$)"; CTexto "Tipo"; CTexto "Natureza"].

(** The rows written to the sheet "Gastos Detalhados": the loop appends one
    row per entry of the expense mapping. *)
Definition gastos_rows (d : DadosFinanceirosUsuario) : tabela :=
  fold_left
    (fun rows kv =>
       let categoria := fst kv in
       let valor := snd kv in
       let classif :=
         get_default (V:=dict string) categoria
                [("tipo", "N/A"); ("natureza", "N/A")]
           (classificacao_gastos d) in
       rows ++ [[CTexto categoria; CNumero valor;
                 CTexto (get_default "tipo" "N/A" classif);
                 CTexto (get_default "natureza" "N/A" classif)]])
    (items (gastos_por_categoria d)) [gastos_header].

Definition dividas_header : list celula :=
  [CTexto "Tipo"; CTexto "Valor Original (R$)"; CTexto "Valor Restante (R$)";
   CTexto "Taxa Juros Anual (%)"; CTexto "Parcelas Totais";
   CTexto "Parcelas Restantes"].

(** The rows written to the sheet "Dívidas". *)
Definition dividas_rows (d : DadosFinanceirosUsuario) : tabela :=
  let dividas_rows :=
    fold_left
      (fun rows divida =>
         rows ++ [[CTexto (tipo divida); CNumero (valor_original divida);
                   CNumero (valor_restante divida);
                   CNumero (taxa_juros_anual divida * 100);
                   CInteiro (parcelas_totais divida);
                   CInteiro (parcelas_restantes divida)]])
      (dividas d) [dividas_header] in
  if (length dividas_rows =? 1)%nat then
    dividas_rows ++ [[CTexto "Nenhuma dívida informada."; CTexto "";
                      CTexto ""; CTexto ""; CTexto ""; CTexto ""]]
  else dividas_rows.

(** ** The prompt and the report *)

(** The characters the string literals below cannot hold. *)
Definition nl : string := String (ascii_of_nat 10) EmptyString.
Definition aspas : string := String (ascii_of_nat 34) EmptyString.

(** The first element of [prompt_parts], line by line. *)
Definition instrucoes : string :=
  (String.concat nl [
    "Você é um consultor financeiro altamente experiente, com mais de 7 anos de experiência de mercado, e empático. Sua tarefa é analisar a situação financeira de um indivíduo e fornecer um diagnóstico claro, personalizado";
    "         e acionável em português do Brasil. Com base nos dados fornecidos, identifique os principais pontos fortes e fracos, os maiores desafios e as oportunidades. Ofereça sugestões gerais para os próximos passos,";
    "         incentivando o usuário a tomar ações positivas. Seja direto, mas compreensivo. Use linguagem fácil de entender, evitando jargões excessivos, mas mantendo a profundidade da análise e procure não enrolar muito,";
    "         procure ser sucinto . Não use markdown no output.";
    "";
    "         Inclua feedback sobre o progresso em relação à reserva de emergência (se aplicável) e sugestões concretas para otimizar gastos ou acelerar a quitação de dívidas, se necessário. Baseie as sugestões nos dados de gastos fornecidos.";
    "         Exemplos de sugestões: " ++ aspas ++ "Considere reduzir seus gastos com Lazer em X R$/mês" ++ aspas ++ ", " ++ aspas ++ "Priorize a quitação da dívida de [Tipo da Dívida]" ++ aspas ++ ".";
    "         Se o usuário estiver em superávit e no caminho para a reserva, reforce o comportamento positivo e sugira manter o foco.";
    "         ";
    "         Mas se o usuário estiver com a conta no vermelho indique também caminhos e estrategia que ele pode adotar para melhorar seu saldo, como também dicas de renda extra (algo simples e que grande parte das pessoas poderia fazer";
    "         ou algo relacionado a sua área de atuação a qual o usuário pertence), para ter uma alternativa a mais e melhorar sua renda.";
    "";
    "         ";
    "         "
  ])%string.

(** Number formatting is left to a formatter: what [:.2f], [:.1f] and [:.2%]
    print is a parameter of every definition below, and no property depends
    on it. *)
Record Formato : Type := {
  f2 : Q -> string;         (* f"{x:.2f}" *)
  f1 : pyfloat -> string;   (* f"{x:.1f}" *)
  p2 : Q -> string          (* f"{x:.2%}" *)
}.

(** Exceptions of the dictionary look-ups and of the two remote services. *)
Inductive excecao : Type :=
| KeyError (chave : string)
| SpreadsheetNotFound (msg : string)
| WorksheetNotFound (msg : string)
| TypeError (msg : string)
| Excecao (msg : string).

(** [str(e)] *)
Definition str_excecao (e : excecao) : string :=
  match e with
  | KeyError chave => ("'" ++ chave ++ "'")%string
  | SpreadsheetNotFound msg => msg
  | WorksheetNotFound msg => msg
  | TypeError msg => msg
  | Excecao msg => msg
  end.

Inductive resposta (A : Type) : Type :=
| Retorna (a : A)
| Levanta (e : excecao).
Arguments Retorna {A} a.
Arguments Levanta {A} e.

Definition liga_resposta {A B : Type} (m : resposta A) (k : A -> resposta B)
    : resposta B :=
  match m with
  | Retorna a => k a
  | Levanta e => Levanta e
  end.

Notation "x <-? m ;; k" := (liga_resposta m (fun x => k))
  (at level 61, m at next level, right associativity).

(** [d[k]] *)
Definition getitem {V : Type} (k : string) (d : dict V) : resposta V :=
  match get k d with
  | Some v => Retorna v
  | None => Levanta (KeyError k)
  end.

(** A [for] loop whose body may raise. *)
Fixpoint para_cada {X S : Type} (corpo : S -> X -> resposta S) (xs : list X)
    (s : S) : resposta S :=
  match xs with
  | [] => Retorna s
  | x :: r => s' <-? corpo s x ;; para_cada corpo r s'
  end.

(** [x <= y] on numbers. *)
Definition le (x y : Q) : bool := Qle_bool x y.

(** The list [prompt_parts] of [gerar_analise_ia], block by block.  Each
    block takes the list built so far and returns it extended. *)

(** The list literal the function starts from. *)
Definition prompt_inicio (F : Formato) (d : DadosFinanceirosUsuario)
    : list string := [
  instrucoes;
  (nl ++ "--- Dados Financeiros do Usuário ---")%string;
  ("Renda Líquida Mensal: R$ " ++ f2 F (renda_liquida_mensal d))%string;
  ("Fonte de Renda: " ++ fonte_renda d)%string;
  ("Dependentes: " ++ str_int (dependentes d))%string;
  ("Estabilidade Financeira: " ++ estabilidade_financeira d)%string;
  (nl ++ "Gastos por Categoria:")%string
].

(** One line per expense; [classif['tipo']] and [classif['natureza']] raise
    when the key is missing. *)
Definition prompt_gastos (F : Formato) (d : DadosFinanceirosUsuario)
    (prompt_parts : list string) : resposta (list string) :=
  if negb (length (gastos_por_categoria d) =? 0)%nat then
    para_cada
      (fun parts kv =>
         let categoria := fst kv in
         let valor := snd kv in
         let classif :=
           get_default (V:=dict string) categoria
             [("tipo", "N/A"); ("natureza", "N/A")]
             (classificacao_gastos d) in
         t <-? getitem "tipo" classif ;;
         n <-? getitem "natureza" classif ;;
         Retorna
           (parts ++ [("- " ++ categoria ++ ": R$ " ++ f2 F valor
                       ++ " (Tipo: " ++ t ++ ", Natureza: " ++ n
                       ++ ")")%string]))
      (items (gastos_por_categoria d)) prompt_parts
  else Retorna (prompt_parts ++ ["- Nenhum gasto informado."]).

Definition prompt_patrimonio (F : Formato) (d : DadosFinanceirosUsuario)
    (prompt_parts : list string) : list string :=
  let prompt_parts := prompt_parts ++ [(nl ++ "Situação Patrimonial:")%string] in
  if (length (patrimonio d) =? 0)%nat then
    prompt_parts ++ ["- Nenhum patrimônio informado."]
  else
    fold_left
      (fun parts kv =>
         parts ++ [("- " ++ fst kv ++ ": R$ " ++ f2 F (snd kv))%string])
      (items (patrimonio d)) prompt_parts.

Definition prompt_dividas (F : Formato) (d : DadosFinanceirosUsuario)
    (prompt_parts : list string) : list string :=
  let prompt_parts := prompt_parts ++ [(nl ++ "Dívidas Existentes:")%string] in
  if (length (dividas d) =? 0)%nat then
    prompt_parts ++ ["- Nenhuma dívida informada."]
  else
    fold_left
      (fun parts divida =>
         parts ++ [("- Tipo: " ++ tipo divida
                    ++ ", Valor Restante: R$ " ++ f2 F (valor_restante divida)
                    ++ ", Taxa Juros Anual: " ++ p2 F (taxa_juros_anual divida)
                    ++ ", Parcelas Restantes: "
                    ++ str_int (parcelas_restantes divida) ++ "/"
                    ++ str_int (parcelas_totais divida))%string])
      (dividas d) prompt_parts.

(** The numeric summary and the plan: ten unconditional appends. *)
Definition prompt_resumo (F : Formato) (d : DadosFinanceirosUsuario)
    (prompt_parts : list string) : list string :=
  prompt_parts
  ++ [(nl ++ "--- Resumo Numérico (Já Calculado) ---")%string]
  ++ [("Total de Gastos Mensais: R$ " ++ f2 F (total_gastos_mensais d))%string]
  ++ [("Total de Gastos Essenciais: R$ "
       ++ f2 F (total_gastos_essenciais d))%string]
  ++ [("Saldo Mensal (Renda - Gastos): R$ " ++ f2 F (saldo_mensal d))%string]
  ++ [("Status do Fluxo de Caixa: " ++ status_fluxo_caixa d)%string]
  ++ [(nl ++ "--- Planejamento da Reserva de Emergência (Já Calculado) ---")%string]
  ++ [("Valor Ideal da Reserva de Emergência: R$ "
       ++ f2 F (valor_reserva_emergencia_ideal d) ++ " ("
       ++ str_int (meses_reserva_sugerido d)
       ++ " meses de gastos essenciais)")%string]
  ++ [("Saldo Mensal Disponível para Construir a Reserva: R$ "
       ++ f2 F (saldo_mensal_para_reserva d))%string]
  ++ [("Tempo Estimado para Montar a Reserva (se possível): "
       ++ f1 F (tempo_para_montar_reserva_meses d) ++ " meses")%string]
  ++ [("Meta Mensal Sugerida para Reserva: R$ "
       ++ f2 F (meta_mensal_reserva d))%string].

(** The progress section: its title, then the [if]/[elif] without [else]. *)
Definition prompt_progresso (F : Formato) (d : DadosFinanceirosUsuario)
    (prompt_parts : list string) : list string :=
  let prompt_parts :=
    prompt_parts
    ++ [(nl ++ "--- Progresso Atual (Baseado no Saldo Mensal e Meta) ---")%string] in
  if gt (saldo_mensal d) 0 && gt (meta_mensal_reserva d) 0 then
    prompt_parts
    ++ [("Com o saldo atual de R$ " ++ f2 F (saldo_mensal d)
         ++ " e meta mensal de R$ " ++ f2 F (meta_mensal_reserva d)
         ++ ", você está no caminho para construir a reserva.")%string]
  else if le (saldo_mensal d) 0 then
    prompt_parts
    ++ ["Seu saldo mensal não permite acumular para a reserva no momento."]
  else prompt_parts.

(** [prompt_parts] when the call to the model is reached. *)
Definition prompt_parts (F : Formato) (d : DadosFinanceirosUsuario)
    : resposta (list string) :=
  prompt_parts <-? prompt_gastos F d (prompt_inicio F d) ;;
  Retorna
    (prompt_progresso F d
       (prompt_resumo F d
          (prompt_dividas F d (prompt_patrimonio F d prompt_parts)))).

(** The list [relatorio_parts] of [gerar_relatorio_mensal_simulado]. *)
Definition relatorio_parts (F : Formato) (d : DadosFinanceirosUsuario)
    : list string := [
  "--- Relatório Mensal de Acompanhamento Financeiro ---";
  "Período: Análise Inicial";
  ("Status do Fluxo de Caixa: " ++ status_fluxo_caixa d)%string;
  ("Saldo Mensal: R$ " ++ f2 F (saldo_mensal d))%string;
  "";
  "Resumo de Gastos:";
  ("Total Geral: R$ " ++ f2 F (total_gastos_mensais d))%string;
  ("Total Essenciais: R$ " ++ f2 F (total_gastos_essenciais d))%string;
  ("Total Supérfluos: R$ "
   ++ f2 F (total_gastos_mensais d - total_gastos_essenciais d))%string;
  "";
  "Situação da Reserva de Emergência:";
  ("Valor Ideal: R$ " ++ f2 F (valor_reserva_emergencia_ideal d))%string;
  ("Meta Mensal para Construção: R$ " ++ f2 F (meta_mensal_reserva d))%string;
  if negb (float_eqb (tempo_para_montar_reserva_meses d) Inf)
  then ("Tempo Estimado para Atingir: "
        ++ f1 F (tempo_para_montar_reserva_meses d) ++ " meses")%string
  else "Saldo insuficiente para iniciar";
  "";
  "Análise e Recomendações da IA:";
  feedback_ia_comportamento d
].

(** Assignment to the two text attributes. *)
Definition set_relatorio_mensal_simulado (x : string)
    (d : DadosFinanceirosUsuario) : DadosFinanceirosUsuario := {|
  email_pessoal_usuario := email_pessoal_usuario d;
  renda_liquida_mensal := renda_liquida_mensal d;
  fonte_renda := fonte_renda d;
  gastos_por_categoria := gastos_por_categoria d;
  patrimonio := patrimonio d;
  dividas := dividas d;
  dependentes := dependentes d;
  estabilidade_financeira := estabilidade_financeira d;
  total_gastos_mensais := total_gastos_mensais d;
  total_gastos_essenciais := total_gastos_essenciais d;
  classificacao_gastos := classificacao_gastos d;
  status_fluxo_caixa := status_fluxo_caixa d;
  saldo_mensal := saldo_mensal d;
  valor_reserva_emergencia_ideal := valor_reserva_emergencia_ideal d;
  meses_reserva_sugerido := meses_reserva_sugerido d;
  saldo_mensal_para_reserva := saldo_mensal_para_reserva d;
  tempo_para_montar_reserva_meses := tempo_para_montar_reserva_meses d;
  meta_mensal_reserva := meta_mensal_reserva d;
  relatorio_mensal_simulado := x;
  feedback_ia_comportamento := feedback_ia_comportamento d
|}.

Definition set_feedback_ia_comportamento (x : string)
    (d : DadosFinanceirosUsuario) : DadosFinanceirosUsuario := {|
  email_pessoal_usuario := email_pessoal_usuario d;
  renda_liquida_mensal := renda_liquida_mensal d;
  fonte_renda := fonte_renda d;
  gastos_por_categoria := gastos_por_categoria d;
  patrimonio := patrimonio d;
  dividas := dividas d;
  dependentes := dependentes d;
  estabilidade_financeira := estabilidade_financeira d;
  total_gastos_mensais := total_gastos_mensais d;
  total_gastos_essenciais := total_gastos_essenciais d;
  classificacao_gastos := classificacao_gastos d;
  status_fluxo_caixa := status_fluxo_caixa d;
  saldo_mensal := saldo_mensal d;
  valor_reserva_emergencia_ideal := valor_reserva_emergencia_ideal d;
  meses_reserva_sugerido := meses_reserva_sugerido d;
  saldo_mensal_para_reserva := saldo_mensal_para_reserva d;
  tempo_para_montar_reserva_meses := tempo_para_montar_reserva_meses d;
  meta_mensal_reserva := meta_mensal_reserva d;
  relatorio_mensal_simulado := relatorio_mensal_simulado d;
  feedback_ia_comportamento := x
|}.

Definition gerar_relatorio_mensal_simulado (F : Formato)
    (d : DadosFinanceirosUsuario) : DadosFinanceirosUsuario :=
  set_relatorio_mensal_simulado (String.concat nl (relatorio_parts F d)) d.

(** ** Actions: the page and the remote services *)

(** What [st.error], [st.warning], [st.info] and [st.success] put on the
    page. *)
Inductive nivel : Type :=
| StError
| StWarning
| StInfo
| StSuccess.

Definition mensagem : Type := (nivel * string)%type.

(** An action runs in a state made of the remote world (of type [Mundo],
    whatever the services keep) and of the messages shown so far; it returns
    or raises, and leaves a new state. *)
Definition Acao (Mundo A : Type) : Type :=
  Mundo * list mensagem -> resposta A * (Mundo * list mensagem).

Definition retorna {Mundo A : Type} (a : A) : Acao Mundo A :=
  fun s => (Retorna a, s).

Definition levanta {Mundo A : Type} (e : excecao) : Acao Mundo A :=
  fun s => (Levanta e, s).

Definition liga {Mundo A B : Type} (m : Acao Mundo A) (k : A -> Acao Mundo B)
    : Acao Mundo B :=
  fun s =>
    match m s with
    | (Retorna a, s') => k a s'
    | (Levanta e, s') => (Levanta e, s')
    end.

Notation "x <-! m ;; k" := (liga m (fun x => k))
  (at level 61, m at next level, right associativity).
Notation "m ;;! k" := (liga m (fun _ => k))
  (at level 61, right associativity).

(** [try: m  except Exception as e: h e] *)
Definition tentar {Mundo A : Type} (m : Acao Mundo A)
    (h : excecao -> Acao Mundo A) : Acao Mundo A :=
  fun s =>
    match m s with
    | (Retorna a, s') => (Retorna a, s')
    | (Levanta e, s') => h e s'
    end.

(** A call of [st.error] and the like: the message is added to the page. *)
Definition st {Mundo : Type} (n : nivel) (msg : string) : Acao Mundo unit :=
  fun s => (Retorna tt, (fst s, snd s ++ [(n, msg)])).

(** A call to a remote service: it sees and changes the world only. *)
Definition chama {Mundo A : Type} (c : Mundo -> resposta A * Mundo)
    : Acao Mundo A :=
  fun s => let (r, w) := c (fst s) in (r, (w, snd s)).

(** A value computed without the services, which may have raised. *)
Definition puro {Mundo A : Type} (r : resposta A) : Acao Mundo A :=
  fun s => (r, s).

(** ** The language model: [gerar_analise_ia] and
    [gerar_feedback_comportamento_ia] *)

(** [model_ia.generate_content(prompt).text] *)
Definition ModeloIA (Mundo : Type) : Type :=
  string -> Mundo -> resposta string * Mundo.

Definition gerar_analise_ia {Mundo : Type} (F : Formato)
    (d : DadosFinanceirosUsuario) (model_ia : ModeloIA Mundo)
    : Acao Mundo string :=
  prompt_parts <-! puro (prompt_parts F d) ;;
  let full_prompt := String.concat nl prompt_parts in
  tentar (chama (model_ia full_prompt))
    (fun e =>
       st StError ("Erro ao chamar a IA Generativa: " ++ str_excecao e)%string ;;!
       retorna
         "Não foi possível gerar uma análise detalhada da IA neste momento.").

Definition gerar_feedback_comportamento_ia {Mundo : Type} (F : Formato)
    (d : DadosFinanceirosUsuario) (model_ia : ModeloIA Mundo)
    : Acao Mundo DadosFinanceirosUsuario :=
  texto <-! gerar_analise_ia F d model_ia ;;
  retorna (set_feedback_ia_comportamento texto d).

(** ** The sheets client: [gerar_planilha_google_sheets] *)

(** The methods of the client, of a spreadsheet and of a worksheet that the
    function calls.  [Planilha] and [Aba] are the handles the client gives
    out. *)
Record ClienteSheets (Mundo Planilha Aba : Type) : Type := {
  open_ : string -> Mundo -> resposta Planilha * Mundo;
  create : string -> Mundo -> resposta Planilha * Mundo;
  (* spreadsheet.share(email, perm_type=..., role=...) *)
  share : Planilha -> string -> string -> string ->
          Mundo -> resposta unit * Mundo;
  worksheet : Planilha -> string -> Mundo -> resposta Aba * Mundo;
  (* spreadsheet.add_worksheet(title=..., rows=..., cols=...) *)
  add_worksheet : Planilha -> string -> string -> string ->
                  Mundo -> resposta Aba * Mundo;
  clear : Aba -> Mundo -> resposta unit * Mundo;
  update : Aba -> string -> tabela -> Mundo -> resposta unit * Mundo;
  url : Planilha -> Mundo -> resposta string * Mundo
}.
Arguments open_ {Mundo Planilha Aba} _ _ _.
Arguments create {Mundo Planilha Aba} _ _ _.
Arguments share {Mundo Planilha Aba} _ _ _ _ _ _.
Arguments worksheet {Mundo Planilha Aba} _ _ _ _.
Arguments add_worksheet {Mundo Planilha Aba} _ _ _ _ _ _.
Arguments clear {Mundo Planilha Aba} _ _ _.
Arguments update {Mundo Planilha Aba} _ _ _ _ _.
Arguments url {Mundo Planilha Aba} _ _ _.

(** One of the three blocks that fetch a worksheet, or add it when it is
    missing, clear it and write a table at A1. *)
Definition atualizar_aba {Mundo Planilha Aba : Type}
    (c : ClienteSheets Mundo Planilha Aba) (spreadsheet : Planilha)
    (titulo rows cols : string) (dados : tabela) : Acao Mundo unit :=
  ws <-! tentar (chama (worksheet c spreadsheet titulo))
           (fun e =>
              match e with
              | WorksheetNotFound _ =>
                  chama (add_worksheet c spreadsheet titulo rows cols)
              | _ => levanta e
              end) ;;
  chama (clear c ws) ;;!
  chama (update c ws "A1" dados).

(** The block that shares the spreadsheet with the user's address, when
    there is one; a failure of the call is caught here. *)
Definition compartilhar {Mundo Planilha Aba : Type}
    (c : ClienteSheets Mundo Planilha Aba) (d : DadosFinanceirosUsuario)
    (spreadsheet : Planilha) : Acao Mundo unit :=
  if truthy (email_pessoal_usuario d) then
    tentar
      (chama (share c spreadsheet (email_pessoal_usuario d) "user" "writer") ;;!
       st StSuccess
         ("Planilha enviada com sucesso para o e-mail: "
          ++ email_pessoal_usuario d ++ ".")%string)
      (fun share_error =>
         st StWarning
           ("AVISO: Não foi possível compartilhar a planilha com "
            ++ email_pessoal_usuario d ++ ".")%string ;;!
         st StWarning
           ("Detalhes do erro de compartilhamento: "
            ++ str_excecao share_error)%string ;;!
         st StInfo
           "Causas comuns: Email inválido, permissões insuficientes da conta de serviço para compartilhar.")
  else
    st StInfo
      "AVISO: Email pessoal do usuário não fornecido. A planilha não será compartilhada automaticamente.".

(** The three worksheets, then [return spreadsheet.url]. *)
Definition escrever_abas {Mundo Planilha Aba : Type}
    (c : ClienteSheets Mundo Planilha Aba) (d : DadosFinanceirosUsuario)
    (spreadsheet : Planilha) : Acao Mundo (option string) :=
  atualizar_aba c spreadsheet "Resumo Geral" "200" "20" (resumo_data d) ;;!
  atualizar_aba c spreadsheet "Gastos Detalhados" "100" "10" (gastos_rows d) ;;!
  atualizar_aba c spreadsheet "Dívidas" "100" "10" (dividas_rows d) ;;!
  u <-! chama (url c spreadsheet) ;;
  retorna (Some u).

(** The body of the outer [try] from the point where [spreadsheet] is
    bound. *)
Definition publicar {Mundo Planilha Aba : Type}
    (c : ClienteSheets Mundo Planilha Aba) (d : DadosFinanceirosUsuario)
    (spreadsheet : Planilha) : Acao Mundo (option string) :=
  compartilhar c d spreadsheet ;;! escrever_abas c d spreadsheet.

(** The handler of the outer [try]. *)
Definition tratar_erro_geral {Mundo : Type} (e : excecao)
    : Acao Mundo (option string) :=
  st StError
    ("ERRO GERAL ao gerar/atualizar a planilha Google Sheets: "
     ++ str_excecao e)%string ;;!
  st StWarning
    "Verifique as permissões da sua conta de serviço no Google Cloud Console." ;;!
  retorna None.

Definition gerar_planilha_google_sheets {Mundo Planilha Aba : Type}
    (d : DadosFinanceirosUsuario)
    (client_sheets : option (ClienteSheets Mundo Planilha Aba))
    (sheet_name : string) : Acao Mundo (option string) :=
  match client_sheets with
  | None =>
      st StError
        "Não foi possível gerar a planilha Google Sheets. O cliente da API não foi autenticado." ;;!
      retorna None
  | Some c =>
      tentar
        (fun s =>
           match chama (open_ c sheet_name) s with
           | (Retorna spreadsheet, s') => publicar c d spreadsheet s'
           | (Levanta (SpreadsheetNotFound _), s') =>
               (st StWarning
                  ("Planilha '" ++ sheet_name
                   ++ "' não encontrada. Criando nova planilha...")%string ;;!
                fun s'' =>
                  match
                    (spreadsheet <-! chama (create c sheet_name) ;;
                     st StSuccess
                       ("Planilha '" ++ sheet_name
                        ++ "' criada com sucesso.")%string ;;!
                     retorna spreadsheet) s''
                  with
                  | (Retorna spreadsheet, s3) => publicar c d spreadsheet s3
                  | (Levanta create_error, s3) =>
                      (st StError
                         ("ERRO GRAVE: Falha ao criar a planilha '"
                          ++ sheet_name ++ "'.")%string ;;!
                       st StError
                         ("Detalhes do erro de criação: "
                          ++ str_excecao create_error)%string ;;!
                       st StWarning
                         "Causas comuns: Permissões insuficientes da conta de serviço no Google Drive para criar arquivos." ;;!
                       retorna None) s3
                  end) s'
           | (Levanta e, s') => (Levanta e, s')
           end)
        tratar_erro_geral
  end.

(** ** Further reference definitions *)

(** The categories the table marks as essential, read off the table. *)
Definition categorias_essenciais : list string :=
  keys (filter (fun kv => opt_str_eqb (get "tipo" (snd kv)) (Some "Essencial"))
          classificacao_padrao).

(** A category whose stored classification lacks the [tipo] or the
    [natureza] key. *)
Definition classificacao_incompleta (d : DadosFinanceirosUsuario)
    (categoria : string) : Prop :=
  exists c,
    get categoria (classificacao_gastos d) = Some c /\
    (get "tipo" c = None \/ get "natureza" c = None).

(** A client that differs from [c] in its [share] method only. *)
Definition com_share {Mundo Planilha Aba : Type}
    (c : ClienteSheets Mundo Planilha Aba)
    (share' : Planilha -> string -> string -> string ->
              Mundo -> resposta unit * Mundo)
    : ClienteSheets Mundo Planilha Aba := {|
  open_ := open_ c;
  create := create c;
  share := share';
  worksheet := worksheet c;
  add_worksheet := add_worksheet c;
  clear := clear c;
  update := update c;
  url := url c
|}.

(** ** Sample collaborators *)

(** A client whose world is the list of the calls made so far.  Opening,
    creating and sharing fail when asked to; the other calls succeed. *)
Definition cliente_de_teste (falha_open falha_create : option excecao)
    (falha_share : bool) : ClienteSheets (list string) string string := {|
  open_ := fun nome w =>
    (match falha_open with Some e => Levanta e | None => Retorna nome end,
     w ++ ["open"]);
  create := fun nome w =>
    (match falha_create with Some e => Levanta e | None => Retorna nome end,
     w ++ ["create"]);
  share := fun _ _ _ _ w =>
    (if falha_share then Levanta (Excecao "403") else Retorna tt,
     w ++ ["share"]);
  worksheet := fun _ titulo w => (Retorna titulo, w ++ ["worksheet"]);
  add_worksheet := fun _ titulo _ _ w =>
    (Retorna titulo, w ++ ["add_worksheet"]);
  clear := fun _ w => (Retorna tt, w ++ ["clear"]);
  update := fun _ _ _ w => (Retorna tt, w ++ ["update"]);
  url := fun sp w => (Retorna ("https://sheets/" ++ sp)%string, w ++ ["url"])
|}.

(** A formatter and a model for the samples. *)
Definition formato_de_teste : Formato := {|
  f2 := fun _ => "0.00";
  f1 := fun _ => "0.0";
  p2 := fun _ => "0.00%"
|}.

Definition modelo_de_teste (falha : bool) : ModeloIA (list string) :=
  fun _ w =>
    (if falha then Levanta (Excecao "503") else Retorna "Tudo certo.",
     w ++ ["generate_content"]).

(** ** Properties of actions used in the statements *)

(** An action whose response and final world do not depend on the messages
    already on the page, and which only adds messages, the added ones
    satisfying [P]. *)
Definition acrescenta {Mundo A : Type} (P : list mensagem -> Prop)
    (m : Acao Mundo A) : Prop :=
  forall w, exists r w' l,
    P l /\ forall tela, m (w, tela) = (r, (w', tela ++ l)).

(** No error message among the given ones. *)
Definition sem_erro (l : list mensagem) : Prop :=
  forall msg, ~ In (StError, msg) l.

(** * Properties *)

(** ** Numbers *)

Lemma gt_true (x y : Q) : gt x y = true <-> y < x.
Proof.
  unfold gt. rewrite negb_true_iff, <- not_true_iff_false, Qle_bool_iff.
  split; [apply Qnot_le_lt | apply Qlt_not_le].
Qed.

Lemma gt_false (x y : Q) : gt x y = false <-> x <= y.
Proof.
  unfold gt. rewrite negb_false_iff. apply Qle_bool_iff.
Qed.

Lemma lt_true (x y : Q) : lt x y = true <-> x < y.
Proof. apply gt_true. Qed.

Lemma lt_false (x y : Q) : lt x y = false <-> y <= x.
Proof. apply gt_false. Qed.

Lemma py_max_Qmax (a b : Q) : py_max a b == Qmax a b.
Proof.
  unfold py_max. destruct (gt b a) eqn:E.
  - apply gt_true in E. symmetry. apply Q.max_r. lra.
  - apply gt_false in E. symmetry. apply Q.max_l. exact E.
Qed.

Lemma py_max_0_nonneg (x : Q) : 0 <= py_max 0 x.
Proof.
  unfold py_max. destruct (gt x 0) eqn:E; [apply gt_true in E|]; lra.
Qed.

Lemma fold_left_Qplus (xs : list Q) (a : Q) :
  fold_left Qplus xs a == a + soma xs.
Proof.
  revert a. induction xs as [|x r IH]; intros a; simpl.
  - lra.
  - rewrite IH. lra.
Qed.

Lemma sum_soma (xs : list Q) : sum xs == soma xs.
Proof. unfold sum. rewrite fold_left_Qplus. lra. Qed.

Lemma soma_app (xs ys : list Q) : soma (xs ++ ys) == soma xs + soma ys.
Proof.
  induction xs as [|x r IH]; simpl; [|rewrite IH]; lra.
Qed.

Lemma truediv_pos (a b : Q) : 0 < b -> truediv a b = Ok (a / b).
Proof.
  intros H. unfold truediv. destruct (Qeq_bool b 0) eqn:E; [|reflexivity].
  apply Qeq_bool_iff in E. lra.
Qed.

Lemma truediv_raises (a b : Q) (e : exn) : truediv a b = Raise e <-> b == 0.
Proof.
  unfold truediv. destruct (Qeq_bool b 0) eqn:E.
  - apply Qeq_bool_iff in E. split; [intros _; exact E|].
    intros _. destruct e. reflexivity.
  - split; [discriminate|]. intros H. apply Qeq_bool_iff in H. congruence.
Qed.

(** ** The two stages, field by field *)

Ltac por_casos :=
  repeat match goal with
         | |- context [if ?b then _ else _] => destruct b eqn:?
         end.

Lemma analisar_total_gastos_mensais (d : DadosFinanceirosUsuario) :
  total_gastos_mensais (analisar_fluxo_caixa d)
  = sum (values (gastos_por_categoria d)).
Proof. unfold analisar_fluxo_caixa; cbv zeta. por_casos; reflexivity. Qed.

Lemma analisar_total_gastos_essenciais (d : DadosFinanceirosUsuario) :
  total_gastos_essenciais (analisar_fluxo_caixa d)
  = sum (map snd (filter (fun kv => tipo_essencial d (fst kv))
                    (items (gastos_por_categoria d)))).
Proof. unfold analisar_fluxo_caixa; cbv zeta. por_casos; reflexivity. Qed.

Lemma analisar_saldo_mensal (d : DadosFinanceirosUsuario) :
  saldo_mensal (analisar_fluxo_caixa d)
  = renda_liquida_mensal d - sum (values (gastos_por_categoria d)).
Proof. unfold analisar_fluxo_caixa; cbv zeta. por_casos; reflexivity. Qed.

Lemma analisar_status_fluxo_caixa (d : DadosFinanceirosUsuario) :
  status_fluxo_caixa (analisar_fluxo_caixa d)
  = let s := saldo_mensal (analisar_fluxo_caixa d) in
    if gt s 0 then "Superavitário"
    else if lt s 0 then "Deficitário" else "Equilibrado".
Proof.
  cbv zeta. rewrite analisar_saldo_mensal.
  unfold analisar_fluxo_caixa; cbv zeta.
  change (saldo_mensal
            (set_saldo_mensal ?x _)) with x.
  change (total_gastos_mensais
            (set_total_gastos_essenciais _ (set_total_gastos_mensais ?x _)))
    with x.
  change (renda_liquida_mensal
            (set_total_gastos_essenciais _ (set_total_gastos_mensais _ ?d)))
    with (renda_liquida_mensal d).
  por_casos; reflexivity.
Qed.

Lemma analisar_mesmas_entradas (d : DadosFinanceirosUsuario) :
  mesmas_entradas (analisar_fluxo_caixa d) d.
Proof.
  unfold analisar_fluxo_caixa; cbv zeta.
  por_casos; repeat split.
Qed.

Lemma planejar_reserva_emergencia_Ok (d : DadosFinanceirosUsuario) :
  planejar_reserva_emergencia d = Ok (plano_da_reserva d).
Proof.
  unfold planejar_reserva_emergencia, plano_da_reserva; cbv zeta.
  change (saldo_mensal_para_reserva (set_saldo_mensal_para_reserva ?x _))
    with x.
  destruct (gt (py_max 0 _) 0) eqn:E; [|reflexivity].
  change (valor_reserva_emergencia_ideal
            (set_saldo_mensal_para_reserva _
               (set_valor_reserva_emergencia_ideal ?x _))) with x.
  apply gt_true in E. rewrite (truediv_pos _ _ E). reflexivity.
Qed.

Lemma plano_mesmas_entradas (d : DadosFinanceirosUsuario) :
  mesmas_entradas (plano_da_reserva d) d.
Proof. repeat split. Qed.

(** ** Dictionaries *)

Section DictFacts.

Context {V : Type}.
Implicit Types (d : dict V) (k : string) (v : V).

Lemma set_fresh k v d : ~ In k (keys d) -> set k v d = d ++ [(k, v)].
Proof.
  induction d as [|[k' v'] r IH]; simpl; intros H; [reflexivity|].
  destruct (String.eqb_spec k k') as [->|_].
  - exfalso. apply H. now left.
  - rewrite IH; [reflexivity|]. intros Hin. apply H. now right.
Qed.

Lemma keys_app d1 d2 : keys (d1 ++ d2) = keys d1 ++ keys d2.
Proof. apply map_app. Qed.

Lemma get_notin k d : ~ In k (keys d) -> get k d = None.
Proof.
  induction d as [|[k' v'] r IH]; simpl; intros H; [reflexivity|].
  destruct (String.eqb_spec k k') as [->|_].
  - exfalso. apply H. now left.
  - apply IH. intros Hin. apply H. now right.
Qed.

Lemma get_In k v d : get k d = Some v -> In (k, v) d.
Proof.
  induction d as [|[k' v'] r IH]; simpl; [discriminate|].
  destruct (String.eqb_spec k k') as [->|_].
  - intros [= ->]. now left.
  - intros H. right. now apply IH.
Qed.

Lemma In_keys k v d : In (k, v) d -> In k (keys d).
Proof. intros H. apply (in_map fst) in H. exact H. Qed.

Lemma In_get k v d : wf d -> In (k, v) d -> get k d = Some v.
Proof.
  unfold wf. induction d as [|[k' v'] r IH]; simpl; [easy|].
  intros Hnd [[= -> ->]|Hin].
  - now rewrite String.eqb_refl.
  - inversion Hnd as [|? ? Hk Hr]; subst.
    destruct (String.eqb_spec k k') as [->|_].
    + exfalso. apply Hk. eapply In_keys; eassumption.
    + now apply IH.
Qed.

Lemma wf_filter (p : string * V -> bool) d : wf d -> wf (filter p d).
Proof.
  unfold wf. induction d as [|[k' v'] r IH]; simpl; [easy|].
  intros Hnd. inversion Hnd as [|? ? Hk Hr]; subst.
  destruct (p (k', v')); [|now apply IH].
  simpl. constructor; [|now apply IH].
  intros Hin. apply Hk. unfold keys in *.
  apply in_map_iff in Hin. destruct Hin as [[k v] [Hfst Hin]].
  apply filter_In in Hin. simpl in Hfst. subst k.
  eapply In_keys. apply Hin.
Qed.

Lemma get_filter (p : string * V -> bool) k v d :
  wf d ->
  (get k (filter p d) = Some v <-> get k d = Some v /\ p (k, v) = true).
Proof.
  intros Hwf. split.
  - intros H. apply get_In in H. apply filter_In in H.
    destruct H as [Hin Hp]. split; [now apply In_get|exact Hp].
  - intros [H Hp]. apply In_get; [now apply wf_filter|].
    apply filter_In. split; [now apply get_In|exact Hp].
Qed.

Lemma eta_items d : map (fun kv => (fst kv, snd kv)) d = d.
Proof.
  induction d as [|[k v] r IH]; simpl; [reflexivity|]. now rewrite IH.
Qed.

End DictFacts.

Section Comprehension.

Context {X V : Type} (key : X -> string) (val : X -> V) (cond : X -> bool).

Let passo (acc : dict V) (x : X) : dict V :=
  if cond x then set (key x) (val x) acc else acc.

Lemma comp_fold (xs : list X) (acc : dict V) :
  NoDup (map key xs) ->
  (forall x, In x xs -> ~ In (key x) (keys acc)) ->
  fold_left passo xs acc
  = acc ++ map (fun x => (key x, val x)) (filter cond xs).
Proof.
  revert acc. induction xs as [|x r IH]; simpl; intros acc Hnd Hacc.
  - now rewrite app_nil_r.
  - inversion Hnd as [|? ? Hx Hr]; subst.
    unfold passo at 2. destruct (cond x) eqn:Ec.
    + rewrite set_fresh by (apply Hacc; now left).
      rewrite IH; [simpl; now rewrite <- app_assoc|exact Hr|].
      intros y Hy. rewrite keys_app. simpl. intros Hin.
      apply in_app_or in Hin. destruct Hin as [Hin|[Heq|[]]].
      * apply (Hacc y); [now right|exact Hin].
      * apply Hx. rewrite Heq. now apply in_map.
    + apply IH; [exact Hr|]. intros y Hy. apply Hacc. now right.
Qed.

(** On a source without repeated keys a comprehension is a filter followed
    by a map. *)
Lemma comp_filter_map (xs : list X) :
  NoDup (map key xs) ->
  comp key val cond xs = map (fun x => (key x, val x)) (filter cond xs).
Proof.
  intros Hnd. unfold comp. fold passo.
  rewrite comp_fold; [reflexivity|exact Hnd|]. intros x _ [].
Qed.

(** Whatever the source, every value stored by a comprehension comes from
    an element that passed the condition. *)
Lemma comp_values (P : V -> Prop) (xs : list X) :
  (forall x, In x xs -> cond x = true -> P (val x)) ->
  Forall P (values (comp key val cond xs)).
Proof.
  unfold comp. fold passo.
  assert (Hset : forall k v (acc : dict V),
             P v -> Forall P (values acc) -> Forall P (values (set k v acc))).
  { intros k v acc Hv. induction acc as [|[k' v'] r IH]; simpl; intros H.
    - now constructor.
    - inversion H; subst. destruct (String.eqb k k'); simpl.
      + now constructor.
      + constructor; [assumption|now apply IH]. }
  assert (Hgen : forall acc, Forall P (values acc) ->
             (forall x, In x xs -> cond x = true -> P (val x)) ->
             Forall P (values (fold_left passo xs acc))).
  { induction xs as [|x r IH]; simpl; intros acc Hacc Hxs; [exact Hacc|].
    apply IH.
    - unfold passo. destruct (cond x) eqn:Ec; [|exact Hacc].
      apply Hset; [|exact Hacc]. apply Hxs; [now left|exact Ec].
    - intros y Hy. apply Hxs. now right. }
  intros H. apply Hgen; [constructor|exact H].
Qed.

End Comprehension.

(** ** The cash-flow stage *)




(** C3.  After the cash-flow stage the status is surplus exactly when the
    monthly balance is positive, deficit exactly when it is negative, and
    balanced exactly when it is zero. *)
Theorem analisar_fluxo_caixa_status (d : DadosFinanceirosUsuario) :
  let d' := analisar_fluxo_caixa d in
  (status_fluxo_caixa d' = "Superavitário" <-> 0 < saldo_mensal d') /\
  (status_fluxo_caixa d' = "Deficitário" <-> saldo_mensal d' < 0) /\
  (status_fluxo_caixa d' = "Equilibrado" <-> saldo_mensal d' == 0).
Proof.
  cbv zeta. rewrite analisar_status_fluxo_caixa. cbv zeta.
  destruct (gt (saldo_mensal (analisar_fluxo_caixa d)) 0) eqn:Eg.
  - apply gt_true in Eg.
    repeat split; try discriminate; intros; try reflexivity; lra.
  - apply gt_false in Eg.
    destruct (lt (saldo_mensal (analisar_fluxo_caixa d)) 0) eqn:El.
    + apply lt_true in El.
      repeat split; try discriminate; intros; try reflexivity; lra.
    + apply lt_false in El.
      repeat split; try discriminate; intros; try reflexivity; lra.
Qed.

(** ** The emergency-fund stage *)

Lemma plano_saldo_mensal_para_reserva (d : DadosFinanceirosUsuario) :
  saldo_mensal_para_reserva (plano_da_reserva d) = py_max 0 (saldo_mensal d).
Proof. reflexivity. Qed.

Lemma plano_valor_ideal (d : DadosFinanceirosUsuario) :
  valor_reserva_emergencia_ideal (plano_da_reserva d)
  = total_gastos_essenciais d
    * inject_Z (meses_reserva_sugerido (plano_da_reserva d)).
Proof. reflexivity. Qed.

Lemma plano_tempo (d : DadosFinanceirosUsuario) :
  tempo_para_montar_reserva_meses (plano_da_reserva d)
  = let disponivel := saldo_mensal_para_reserva (plano_da_reserva d) in
    if gt disponivel 0
    then Fin (valor_reserva_emergencia_ideal (plano_da_reserva d) / disponivel)
    else Inf.
Proof. reflexivity. Qed.

Lemma plano_meta (d : DadosFinanceirosUsuario) :
  meta_mensal_reserva (plano_da_reserva d)
  = let disponivel := saldo_mensal_para_reserva (plano_da_reserva d) in
    if gt disponivel 0 then disponivel else 0.
Proof. reflexivity. Qed.

Lemma plano_meses (d : DadosFinanceirosUsuario) :
  meses_reserva_sugerido (plano_da_reserva d)
  = if str_in (lower (estabilidade_financeira d)) ["autônomo"; "informal"]
    then 12%Z else 6%Z.
Proof. reflexivity. Qed.

(** C2.  The planning stage sets the balance available for the fund to
    max(0, monthly balance), which is never negative.  When it is positive,
    months-to-target is the ideal target divided by it and the suggested
    contribution is the balance available; when it is zero, months-to-target
    is the infinite sentinel, not the result of a division, and the
    contribution is 0. *)
Theorem planejar_reserva_emergencia_saldo (d : DadosFinanceirosUsuario) :
  exists d',
    planejar_reserva_emergencia d = Ok d' /\
    let disponivel := saldo_mensal_para_reserva d' in
    disponivel = py_max 0 (saldo_mensal d) /\
    disponivel == Qmax 0 (saldo_mensal d) /\
    0 <= disponivel /\
    (0 < disponivel ->
       tempo_para_montar_reserva_meses d'
       = Fin (valor_reserva_emergencia_ideal d' / disponivel) /\
       meta_mensal_reserva d' = disponivel) /\
    (disponivel == 0 ->
       tempo_para_montar_reserva_meses d' = Inf /\
       (forall q, tempo_para_montar_reserva_meses d' <> Fin q) /\
       meta_mensal_reserva d' = 0).
Proof.
  exists (plano_da_reserva d). split; [apply planejar_reserva_emergencia_Ok|].
  cbv zeta. rewrite plano_tempo, plano_meta. cbv zeta.
  rewrite plano_saldo_mensal_para_reserva.
  split; [reflexivity|]. split; [apply py_max_Qmax|].
  split; [apply py_max_0_nonneg|].
  destruct (gt (py_max 0 (saldo_mensal d)) 0) eqn:E.
  - apply gt_true in E. split; [now intros _|]. intros H. lra.
  - apply gt_false in E. split; [intros H; lra|].
    intros _. repeat split. discriminate.
Qed.

(** C4.  The planning stage never raises: its one division can only fail on
    a zero divisor, it is reached only when the balance available is
    positive, and so a finite months-to-target is only ever stored next to a
    positive balance available. *)
Theorem planejar_reserva_emergencia_total :
  (forall a b e, truediv a b = Raise e <-> b == 0) /\
  (forall d, exists d', planejar_reserva_emergencia d = Ok d') /\
  (forall d e, planejar_reserva_emergencia d <> Raise e) /\
  (forall d d' q,
      planejar_reserva_emergencia d = Ok d' ->
      tempo_para_montar_reserva_meses d' = Fin q ->
      0 < saldo_mensal_para_reserva d' /\
      truediv (valor_reserva_emergencia_ideal d') (saldo_mensal_para_reserva d')
      = Ok q).
Proof.
  split; [intros a b e; apply truediv_raises|].
  split; [intros d; eexists; apply planejar_reserva_emergencia_Ok|].
  split.
  - intros d e. rewrite planejar_reserva_emergencia_Ok. discriminate.
  - intros d d' q. rewrite planejar_reserva_emergencia_Ok. intros [= <-].
    rewrite plano_tempo. cbv zeta.
    destruct (gt (saldo_mensal_para_reserva (plano_da_reserva d)) 0) eqn:E;
      [|discriminate].
    apply gt_true in E. intros [= <-]. split; [exact E|].
    now apply truediv_pos.
Qed.

Lemma str_in_2 (x a b : string) :
  str_in x [a; b] = true <-> x = a \/ x = b.
Proof.
  unfold str_in. cbn [existsb]. rewrite !orb_true_iff, !String.eqb_eq.
  intuition discriminate.
Qed.

(** C5.  The suggested horizon is 12 months exactly when the stability
    category is self-employed or informal, and 6 months otherwise; the ideal
    target is total essential expenses times that horizon. *)
Theorem planejar_reserva_emergencia_meses (d : DadosFinanceirosUsuario) :
  exists d',
    planejar_reserva_emergencia d = Ok d' /\
    let e := estabilidade_financeira d in
    (meses_reserva_sugerido d' = 12%Z
     <-> lower e = "autônomo" \/ lower e = "informal") /\
    (meses_reserva_sugerido d' = 6%Z
     <-> ~ (lower e = "autônomo" \/ lower e = "informal")) /\
    (In e opcoes_estabilidade ->
     (meses_reserva_sugerido d' = 12%Z <-> e = "Autônomo" \/ e = "Informal")
     /\ (meses_reserva_sugerido d' = 6%Z
         <-> e <> "Autônomo" /\ e <> "Informal")) /\
    valor_reserva_emergencia_ideal d'
    = total_gastos_essenciais d * inject_Z (meses_reserva_sugerido d').
Proof.
  exists (plano_da_reserva d). split; [apply planejar_reserva_emergencia_Ok|].
  cbv zeta. rewrite <- plano_valor_ideal, plano_meses.
  split; [|split; [|split; [|reflexivity]]].
  - rewrite <- str_in_2. now destruct (str_in _ _).
  - rewrite <- str_in_2. destruct (str_in _ _); split; congruence.
  - unfold opcoes_estabilidade. cbn [In].
    intros [H|[H|[H|[H|[H|[H|[]]]]]]]; rewrite <- H;
      match goal with
      | |- context [str_in ?x ?xs] =>
          let b := eval vm_compute in (str_in x xs) in
          change (str_in x xs) with b
      end; cbv iota;
      intuition (try discriminate; try congruence).
Qed.

(** ** Frame and idempotence *)

(** C10.  Both stages leave every input attribute of the record as it was:
    email, income, income source, dependents, stability, the expense,
    classification and asset mappings, and the debts (and the two text
    attributes written later). *)
Theorem estagios_preservam_entradas (d : DadosFinanceirosUsuario) :
  mesmas_entradas (analisar_fluxo_caixa d) d /\
  (exists d', planejar_reserva_emergencia d = Ok d' /\ mesmas_entradas d' d) /\
  (exists d', executar_analise d = Ok d' /\ mesmas_entradas d' d).
Proof.
  split; [apply analisar_mesmas_entradas|]. split.
  - exists (plano_da_reserva d).
    split; [apply planejar_reserva_emergencia_Ok|apply plano_mesmas_entradas].
  - exists (plano_da_reserva (analisar_fluxo_caixa d)).
    split; [apply planejar_reserva_emergencia_Ok|].
    pose proof (analisar_mesmas_entradas d) as Ha.
    pose proof (plano_mesmas_entradas (analisar_fluxo_caixa d)) as Hp.
    unfold mesmas_entradas in *.
    repeat match goal with H : _ /\ _ |- _ => destruct H end.
    repeat split; congruence.
Qed.

Lemma plano_idempotente (d : DadosFinanceirosUsuario) :
  plano_da_reserva (plano_da_reserva d) = plano_da_reserva d.
Proof. destruct d. reflexivity. Qed.

Lemma analisar_fluxo_caixa_eq (d : DadosFinanceirosUsuario) :
  analisar_fluxo_caixa d
  = let total := sum (values (gastos_por_categoria d)) in
    let essenciais :=
      sum (map snd (filter (fun kv => tipo_essencial d (fst kv))
                      (items (gastos_por_categoria d)))) in
    let saldo := renda_liquida_mensal d - total in
    set_status_fluxo_caixa
      (if gt saldo 0 then "Superavitário"
       else if lt saldo 0 then "Deficitário" else "Equilibrado")
      (set_saldo_mensal saldo
         (set_total_gastos_essenciais essenciais
            (set_total_gastos_mensais total d))).
Proof.
  unfold analisar_fluxo_caixa; cbv zeta.
  change (saldo_mensal (set_saldo_mensal ?x _)) with x.
  change (total_gastos_mensais
            (set_total_gastos_essenciais _ (set_total_gastos_mensais ?x _)))
    with x.
  change (renda_liquida_mensal
            (set_total_gastos_essenciais _ (set_total_gastos_mensais _ ?d)))
    with (renda_liquida_mensal d).
  destruct (gt _ 0); [reflexivity|]. destruct (lt _ 0); reflexivity.
Qed.

(** A record whose cash-flow attributes already agree with its inputs is a
    fixed point of the cash-flow stage. *)
Lemma analisar_ponto_fixo (x : DadosFinanceirosUsuario) :
  total_gastos_mensais x = sum (values (gastos_por_categoria x)) ->
  total_gastos_essenciais x
  = sum (map snd (filter (fun kv => tipo_essencial x (fst kv))
                    (items (gastos_por_categoria x)))) ->
  saldo_mensal x = renda_liquida_mensal x - total_gastos_mensais x ->
  status_fluxo_caixa x
  = (if gt (saldo_mensal x) 0 then "Superavitário"
     else if lt (saldo_mensal x) 0 then "Deficitário" else "Equilibrado") ->
  analisar_fluxo_caixa x = x.
Proof.
  intros Ht He Hs Hst. rewrite analisar_fluxo_caixa_eq. cbv zeta.
  rewrite <- Ht, <- He, <- Hs, <- Hst. destruct x. reflexivity.
Qed.

Lemma analisar_apos_plano (d : DadosFinanceirosUsuario) :
  analisar_fluxo_caixa (plano_da_reserva (analisar_fluxo_caixa d))
  = plano_da_reserva (analisar_fluxo_caixa d).
Proof.
  pose proof (analisar_mesmas_entradas d) as He.
  unfold mesmas_entradas in He.
  destruct He as (_ & Hr & _ & _ & _ & Hg & Hc & _).
  pose proof (analisar_total_gastos_mensais d) as Ht.
  pose proof (analisar_total_gastos_essenciais d) as Hes.
  pose proof (analisar_saldo_mensal d) as Hs.
  pose proof (analisar_status_fluxo_caixa d) as Hst. cbv zeta in Hst.
  set (a := analisar_fluxo_caixa d) in *.
  apply analisar_ponto_fixo.
  - change (total_gastos_mensais a = sum (values (gastos_por_categoria a))).
    now rewrite Hg.
  - change (total_gastos_essenciais a
            = sum (map snd (filter (fun kv => tipo_essencial a (fst kv))
                              (items (gastos_por_categoria a))))).
    rewrite Hg, Hes. unfold tipo_essencial. now rewrite Hc.
  - change (saldo_mensal a = renda_liquida_mensal a - total_gastos_mensais a).
    now rewrite Hr, Ht.
  - exact Hst.
Qed.

Lemma executar_analise_idempotente (d : DadosFinanceirosUsuario) :
  let d1 := plano_da_reserva (analisar_fluxo_caixa d) in
  executar_analise d = Ok d1 /\ executar_analise d1 = Ok d1.
Proof.
  cbv zeta. unfold executar_analise.
  rewrite !planejar_reserva_emergencia_Ok, analisar_apos_plano,
    plano_idempotente.
  split; reflexivity.
Qed.

(** ** The profile builder *)

Lemma filter_true {A : Type} (l : list A) : filter (fun _ => true) l = l.
Proof. induction l as [|x r IH]; simpl; [reflexivity|now rewrite IH]. Qed.

Lemma get_map_key {V : Type} (f : string -> V) (ks : list string) (k : string) :
  In k ks -> get k (map (fun c => (c, f c)) ks) = Some (f k).
Proof.
  induction ks as [|k' r IH]; simpl; [easy|].
  destruct (String.eqb_spec k k') as [->|Hne]; [reflexivity|].
  intros [Heq|Hin]; [congruence|now apply IH].
Qed.

Section Construtor.

Variables (email : string) (renda : Q) (fonte : string) (ndependentes : Z)
  (estabilidade : string) (gastos_dict patrimonio_dict : dict Q)
  (dividas_list : list Divida).

Let d := processar_dados_streamlit email renda fonte ndependentes
           estabilidade gastos_dict patrimonio_dict dividas_list.

Lemma processar_gastos :
  wf gastos_dict -> gastos_por_categoria d = filter positivo gastos_dict.
Proof.
  intros Hwf. unfold d, processar_dados_streamlit.
  cbn [gastos_por_categoria].
  rewrite comp_filter_map by exact Hwf. apply eta_items.
Qed.

Lemma processar_patrimonio :
  wf patrimonio_dict -> patrimonio d = filter positivo patrimonio_dict.
Proof.
  intros Hwf. unfold d, processar_dados_streamlit. cbn [patrimonio].
  rewrite comp_filter_map by exact Hwf. apply eta_items.
Qed.

Lemma processar_classificacao :
  wf gastos_dict ->
  classificacao_gastos d
  = map (fun cat =>
           (cat, get_default cat classificacao_ausente classificacao_padrao))
      (keys (filter positivo gastos_dict)).
Proof.
  intros Hwf. unfold d, processar_dados_streamlit.
  cbn [classificacao_gastos].
  rewrite (comp_filter_map fst snd) by exact Hwf. rewrite eta_items.
  fold positivo.
  rewrite comp_filter_map.
  - now rewrite filter_true.
  - rewrite map_id. apply wf_filter, Hwf.
Qed.

Lemma processar_gastos_positivos :
  Forall (fun v => 0 < v) (values (gastos_por_categoria d)).
Proof.
  unfold d, processar_dados_streamlit. cbn [gastos_por_categoria].
  apply comp_values. intros kv _ H. now apply gt_true in H.
Qed.

Lemma processar_tipo_essencial (categoria : string) :
  wf gastos_dict ->
  In categoria (keys (gastos_por_categoria d)) ->
  tipo_essencial d categoria = essencial_na_tabela categoria.
Proof.
  intros Hwf Hin. unfold tipo_essencial, essencial_na_tabela.
  rewrite processar_classificacao by exact Hwf.
  rewrite processar_gastos in Hin by exact Hwf.
  unfold get_default at 1. now rewrite get_map_key.
Qed.

End Construtor.

Lemma get_filter_positivo (g : dict Q) (k : string) (v : Q) :
  wf g ->
  (get k (filter positivo g) = Some v <-> get k g = Some v /\ 0 < v).
Proof.
  intros Hwf. rewrite get_filter by exact Hwf.
  unfold positivo. cbn [snd]. now rewrite gt_true.
Qed.

Lemma get_filter_positivo_None (g : dict Q) (k : string) (v : Q) :
  wf g -> get k g = Some v -> v <= 0 -> get k (filter positivo g) = None.
Proof.
  intros Hwf Hk Hv.
  destruct (get k (filter positivo g)) as [v'|] eqn:E; [|reflexivity].
  apply get_filter_positivo in E; [|exact Hwf]. destruct E as [E Hpos].
  rewrite Hk in E. injection E as <-. lra.
Qed.

(** C7.  The builder keeps an entry of the raw expense mapping and of the raw
    asset mapping when its amount is strictly positive and drops it when the
    amount is zero or negative: the mappings of the snapshot are exactly the
    strictly positive entries of the input, in the order of the input. *)
Theorem processar_dados_streamlit_filtra
    (email : string) (renda : Q) (fonte : string) (ndependentes : Z)
    (estabilidade : string) (gastos_dict patrimonio_dict : dict Q)
    (dividas_list : list Divida) :
  wf gastos_dict ->
  wf patrimonio_dict ->
  let d := processar_dados_streamlit email renda fonte ndependentes
             estabilidade gastos_dict patrimonio_dict dividas_list in
  gastos_por_categoria d = filter (fun kv => gt (snd kv) 0) gastos_dict /\
  patrimonio d = filter (fun kv => gt (snd kv) 0) patrimonio_dict /\
  (forall k v,
      get k (gastos_por_categoria d) = Some v
      <-> get k gastos_dict = Some v /\ 0 < v) /\
  (forall k v,
      get k (patrimonio d) = Some v
      <-> get k patrimonio_dict = Some v /\ 0 < v) /\
  (forall k v,
      get k gastos_dict = Some v -> v <= 0 ->
      get k (gastos_por_categoria d) = None) /\
  (forall k v,
      get k patrimonio_dict = Some v -> v <= 0 ->
      get k (patrimonio d) = None).
Proof.
  intros Hg Hp. cbv zeta.
  rewrite processar_gastos by exact Hg.
  rewrite processar_patrimonio by exact Hp.
  split; [reflexivity|]. split; [reflexivity|].
  split; [intros k v; now apply get_filter_positivo|].
  split; [intros k v; now apply get_filter_positivo|].
  split; intros k v; now apply get_filter_positivo_None.
Qed.

Lemma soma_filter_le (p : string * Q -> bool) (l : dict Q) :
  Forall (fun v => 0 < v) (values l) ->
  soma (map snd (filter p l)) <= soma (values l).
Proof.
  unfold values. induction l as [|[k v] r IH]; simpl; intros H; [lra|].
  inversion H as [|? ? Hv Hr]; subst. specialize (IH Hr).
  destruct (p (k, v)); simpl; lra.
Qed.

(** C8.  For a snapshot made by the builder and run through the cash-flow
    stage, total essential expenses never exceed total monthly expenses. *)
Theorem essenciais_le_total
    (email : string) (renda : Q) (fonte : string) (ndependentes : Z)
    (estabilidade : string) (gastos_dict patrimonio_dict : dict Q)
    (dividas_list : list Divida) :
  let d := analisar_fluxo_caixa
             (processar_dados_streamlit email renda fonte ndependentes
                estabilidade gastos_dict patrimonio_dict dividas_list) in
  total_gastos_essenciais d <= total_gastos_mensais d.
Proof.
  cbv zeta.
  rewrite analisar_total_gastos_mensais, analisar_total_gastos_essenciais.
  rewrite !sum_soma. apply soma_filter_le, processar_gastos_positivos.
Qed.

(** C9.  Running the cash-flow stage and then the planning stage on a
    snapshot made by the builder, and running both again on the outcome,
    gives the record the first run gave. *)
Theorem executar_analise_duas_vezes
    (email : string) (renda : Q) (fonte : string) (ndependentes : Z)
    (estabilidade : string) (gastos_dict patrimonio_dict : dict Q)
    (dividas_list : list Divida) :
  let d := processar_dados_streamlit email renda fonte ndependentes
             estabilidade gastos_dict patrimonio_dict dividas_list in
  exists d1,
    executar_analise d = Ok d1 /\
    executar_analise d1 = Ok d1 /\
    (d1 <- executar_analise d ;; executar_analise d1) = executar_analise d.
Proof.
  cbv zeta.
  set (d := processar_dados_streamlit email renda fonte ndependentes
              estabilidade gastos_dict patrimonio_dict dividas_list).
  clearbody d.
  pose proof (executar_analise_idempotente d) as H. cbv zeta in H.
  destruct H as [H1 H2].
  exists (plano_da_reserva (analisar_fluxo_caixa d)).
  split; [exact H1|]. split; [exact H2|].
  rewrite H1. cbn [bind]. exact H2.
Qed.






Lemma analisar_processar_essenciais
    (email : string) (renda : Q) (fonte : string) (ndependentes : Z)
    (estabilidade : string) (gastos_dict patrimonio_dict : dict Q)
    (dividas_list : list Divida) :
  wf gastos_dict ->
  total_gastos_essenciais
    (analisar_fluxo_caixa
       (processar_dados_streamlit email renda fonte ndependentes estabilidade
          gastos_dict patrimonio_dict dividas_list))
  = sum (map snd (filter (fun kv => essencial_na_tabela (fst kv))
                    (filter positivo gastos_dict))).
Proof.
  intros Hwf. rewrite analisar_total_gastos_essenciais. unfold items.
  f_equal. f_equal.
  rewrite processar_gastos by exact Hwf.
  apply filter_ext_in. intros [k v] Hin. cbn [fst].
  apply processar_tipo_essencial; [exact Hwf|].
  rewrite processar_gastos by exact Hwf. eapply In_keys, Hin.
Qed.


(** The categories the form asks for are the keys of the table, in the same
    order, so a submission of the form never meets the default pair. *)
Lemma categorias_sugeridas_na_tabela :
  keys classificacao_padrao = categorias_sugeridas.
Proof. reflexivity. Qed.

(** ** The pipeline on the sample submissions *)

Example executar_analise_exemplo :
  exists d,
    executar_analise exemplo = Ok d /\
    total_gastos_mensais d == 4000 /\
    total_gastos_essenciais d == 2000 /\
    saldo_mensal d == 1000 /\
    status_fluxo_caixa d = "Superavitário" /\
    meses_reserva_sugerido d = 6%Z /\
    valor_reserva_emergencia_ideal d == 12000 /\
    (exists q, tempo_para_montar_reserva_meses d = Fin q /\ q == 12) /\
    meta_mensal_reserva d == 1000.
Proof.
  eexists. split; [vm_compute; reflexivity|].
  repeat split; try (eexists; split; [reflexivity|]); reflexivity.
Qed.

Example executar_analise_exemplo_deficit :
  exists d,
    executar_analise exemplo_deficit = Ok d /\
    saldo_mensal d == - (500) /\
    status_fluxo_caixa d = "Deficitário" /\
    meses_reserva_sugerido d = 12%Z /\
    saldo_mensal_para_reserva d == 0 /\
    tempo_para_montar_reserva_meses d = Inf /\
    meta_mensal_reserva d == 0.
Proof.
  eexists. split; [vm_compute; reflexivity|]. repeat split.
Qed.

Example executar_analise_sem_gastos :
  exists d,
    executar_analise
      (processar_dados_streamlit "" 0 "" 0 "Outro" [("Lazer", 0)] [] [])
    = Ok d /\
    total_gastos_mensais d == 0 /\
    total_gastos_essenciais d == 0 /\
    status_fluxo_caixa d = "Equilibrado" /\
    tempo_para_montar_reserva_meses d = Inf.
Proof.
  eexists. split; [vm_compute; reflexivity|]. repeat split.
Qed.

(** ** The statements at the sample submissions *)

Lemma wf_exemplo_gastos : wf exemplo_gastos.
Proof.
  unfold wf, exemplo_gastos, keys. cbn [map fst].
  repeat constructor; cbn [In]; intuition discriminate.
Defined.

Lemma wf_exemplo_patrimonio : wf exemplo_patrimonio.
Proof.
  unfold wf, exemplo_patrimonio, keys. cbn [map fst].
  repeat constructor; cbn [In]; intuition discriminate.
Defined.

Lemma planejar_reserva_emergencia_saldo_exemplo :
  (exists d',
      planejar_reserva_emergencia (analisar_fluxo_caixa exemplo) = Ok d' /\
      0 < saldo_mensal_para_reserva d' /\
      tempo_para_montar_reserva_meses d'
      = Fin (valor_reserva_emergencia_ideal d' / saldo_mensal_para_reserva d')
      /\ meta_mensal_reserva d' = saldo_mensal_para_reserva d') /\
  (exists d',
      planejar_reserva_emergencia (analisar_fluxo_caixa exemplo_deficit)
      = Ok d' /\
      saldo_mensal_para_reserva d' == 0 /\
      tempo_para_montar_reserva_meses d' = Inf /\
      meta_mensal_reserva d' = 0).
Proof.
  split.
  - destruct (planejar_reserva_emergencia_saldo (analisar_fluxo_caixa exemplo))
      as [d' [Hok H]].
    cbv zeta in H. destruct H as (Hd & _ & _ & Hpos & _).
    assert (Hlt : 0 < saldo_mensal_para_reserva d')
      by (rewrite Hd; vm_compute; reflexivity).
    exists d'. split; [exact Hok|]. split; [exact Hlt|]. exact (Hpos Hlt).
  - destruct (planejar_reserva_emergencia_saldo
                (analisar_fluxo_caixa exemplo_deficit)) as [d' [Hok H]].
    cbv zeta in H. destruct H as (Hd & _ & _ & _ & Hzero).
    assert (Hz : saldo_mensal_para_reserva d' == 0)
      by (rewrite Hd; vm_compute; reflexivity).
    exists d'. split; [exact Hok|]. split; [exact Hz|].
    destruct (Hzero Hz) as (Ht & _ & Hm). split; [exact Ht|exact Hm].
Defined.

Lemma planejar_reserva_emergencia_total_exemplo :
  let d' := plano_da_reserva (analisar_fluxo_caixa exemplo) in
  planejar_reserva_emergencia (analisar_fluxo_caixa exemplo) = Ok d' /\
  tempo_para_montar_reserva_meses d' = Fin (12000 / 1000) /\
  0 < saldo_mensal_para_reserva d' /\
  truediv (valor_reserva_emergencia_ideal d') (saldo_mensal_para_reserva d')
  = Ok (12000 / 1000).
Proof.
  cbv zeta.
  assert (H1 : planejar_reserva_emergencia (analisar_fluxo_caixa exemplo)
               = Ok (plano_da_reserva (analisar_fluxo_caixa exemplo)))
    by (vm_compute; reflexivity).
  assert (H2 : tempo_para_montar_reserva_meses
                 (plano_da_reserva (analisar_fluxo_caixa exemplo))
               = Fin (12000 / 1000))
    by (vm_compute; reflexivity).
  split; [exact H1|]. split; [exact H2|].
  exact (proj2 (proj2 (proj2 planejar_reserva_emergencia_total)) _ _ _ H1 H2).
Defined.

Lemma planejar_reserva_emergencia_meses_exemplo :
  (exists d',
      planejar_reserva_emergencia (analisar_fluxo_caixa exemplo) = Ok d' /\
      In (estabilidade_financeira (analisar_fluxo_caixa exemplo))
        opcoes_estabilidade /\
      meses_reserva_sugerido d' = 6%Z) /\
  (exists d',
      planejar_reserva_emergencia (analisar_fluxo_caixa exemplo_deficit)
      = Ok d' /\
      In (estabilidade_financeira (analisar_fluxo_caixa exemplo_deficit))
        opcoes_estabilidade /\
      meses_reserva_sugerido d' = 12%Z).
Proof.
  split.
  - destruct (planejar_reserva_emergencia_meses (analisar_fluxo_caixa exemplo))
      as [d' [Hok H]].
    cbv zeta in H. destruct H as (_ & _ & Hop & _).
    assert (Hin : In (estabilidade_financeira (analisar_fluxo_caixa exemplo))
                    opcoes_estabilidade)
      by (vm_compute; left; reflexivity).
    exists d'. split; [exact Hok|]. split; [exact Hin|].
    apply (proj2 (Hop Hin)). vm_compute. split; discriminate.
  - destruct (planejar_reserva_emergencia_meses
                (analisar_fluxo_caixa exemplo_deficit)) as [d' [Hok H]].
    cbv zeta in H. destruct H as (_ & _ & Hop & _).
    assert (Hin : In (estabilidade_financeira
                        (analisar_fluxo_caixa exemplo_deficit))
                    opcoes_estabilidade)
      by (vm_compute; right; left; reflexivity).
    exists d'. split; [exact Hok|]. split; [exact Hin|].
    apply (proj1 (Hop Hin)). vm_compute. left. reflexivity.
Defined.


Lemma processar_dados_streamlit_filtra_exemplo :
  wf exemplo_gastos /\
  wf exemplo_patrimonio /\
  gastos_por_categoria exemplo
  = [("Moradia (Aluguel)", 1500); ("Alimentação", 500); ("Pets", 2000)] /\
  patrimonio exemplo = [("Investimentos", 300)] /\
  get "Lazer" (gastos_por_categoria exemplo) = None /\
  get "Imóveis" (patrimonio exemplo) = None.
Proof.
  destruct (processar_dados_streamlit_filtra "ana@example.com" 5000
              "Professora" 1 "CLT" exemplo_gastos exemplo_patrimonio []
              wf_exemplo_gastos wf_exemplo_patrimonio)
    as (Hg & Hp & _ & _ & Hdg & Hdp).
  split; [exact wf_exemplo_gastos|]. split; [exact wf_exemplo_patrimonio|].
  split; [exact Hg|]. split; [exact Hp|]. split.
  - apply (Hdg "Lazer" 0); [reflexivity|]. unfold Qle. simpl. lia.
  - apply (Hdp "Imóveis" 0); [reflexivity|]. unfold Qle. simpl. lia.
Defined.

(** * Further properties of the application *)

(** ** The builder, once more *)

Lemma filter_positivo_idem (g : dict Q) :
  filter positivo (filter positivo g) = filter positivo g.
Proof.
  induction g as [|kv r IH]; simpl; [reflexivity|].
  destruct (positivo kv) eqn:E; simpl; [|exact IH]. now rewrite E, IH.
Qed.

(** The builder only looks at the strictly positive entries. *)
Lemma processar_dados_streamlit_ext
    (email : string) (renda : Q) (fonte : string) (ndependentes : Z)
    (estabilidade : string) (g g' p p' : dict Q) (dividas_list : list Divida) :
  wf g -> wf g' -> wf p -> wf p' ->
  filter positivo g = filter positivo g' ->
  filter positivo p = filter positivo p' ->
  processar_dados_streamlit email renda fonte ndependentes estabilidade
    g p dividas_list
  = processar_dados_streamlit email renda fonte ndependentes estabilidade
      g' p' dividas_list.
Proof.
  intros Hg Hg' Hp Hp' Eg Ep.
  pose proof (processar_gastos email renda fonte ndependentes estabilidade
                g p dividas_list Hg) as H1.
  pose proof (processar_gastos email renda fonte ndependentes estabilidade
                g' p' dividas_list Hg') as H1'.
  pose proof (processar_patrimonio email renda fonte ndependentes estabilidade
                g p dividas_list Hp) as H2.
  pose proof (processar_patrimonio email renda fonte ndependentes estabilidade
                g' p' dividas_list Hp') as H2'.
  pose proof (processar_classificacao email renda fonte ndependentes
                estabilidade g p dividas_list Hg) as H3.
  pose proof (processar_classificacao email renda fonte ndependentes
                estabilidade g' p' dividas_list Hg') as H3'.
  unfold processar_dados_streamlit in *.
  cbn [gastos_por_categoria patrimonio classificacao_gastos] in *.
  rewrite H1, H1', H2, H2', Eg, Ep. reflexivity.
Qed.

(** X1.  Entries of the raw mappings whose amount is zero or negative have no
    effect at all on the snapshot: the builder returns the same record with
    or without them, and building again from the mappings of a snapshot
    gives that snapshot back. *)
Theorem processar_dados_streamlit_so_positivos
    (email : string) (renda : Q) (fonte : string) (ndependentes : Z)
    (estabilidade : string) (gastos_dict patrimonio_dict : dict Q)
    (dividas_list : list Divida) :
  wf gastos_dict ->
  wf patrimonio_dict ->
  let d := processar_dados_streamlit email renda fonte ndependentes
             estabilidade gastos_dict patrimonio_dict dividas_list in
  processar_dados_streamlit email renda fonte ndependentes estabilidade
    (filter positivo gastos_dict) (filter positivo patrimonio_dict)
    dividas_list = d /\
  processar_dados_streamlit (email_pessoal_usuario d) (renda_liquida_mensal d)
    (fonte_renda d) (dependentes d) (estabilidade_financeira d)
    (gastos_por_categoria d) (patrimonio d) (dividas d) = d.
Proof.
  intros Hg Hp. cbv zeta.
  assert (E : processar_dados_streamlit email renda fonte ndependentes
                estabilidade (filter positivo gastos_dict)
                (filter positivo patrimonio_dict) dividas_list
              = processar_dados_streamlit email renda fonte ndependentes
                  estabilidade gastos_dict patrimonio_dict dividas_list).
  { apply processar_dados_streamlit_ext;
      try apply wf_filter; try assumption; apply filter_positivo_idem. }
  split; [exact E|].
  rewrite processar_gastos by exact Hg.
  rewrite processar_patrimonio by exact Hp.
  exact E.
Qed.

Lemma keys_map_key {V : Type} (f : string -> V) (ks : list string) :
  keys (map (fun c => (c, f c)) ks) = ks.
Proof.
  unfold keys. rewrite map_map. cbn [fst]. apply map_id.
Qed.

Lemma classificacao_padrao_completa (k : string) :
  exists t n,
    get_default k classificacao_ausente classificacao_padrao
    = [("tipo", t); ("natureza", n)].
Proof.
  unfold get_default, classificacao_padrao, classificacao_ausente.
  cbn [get].
  repeat match goal with
         | |- context [if String.eqb k ?s then _ else _] =>
             destruct (String.eqb k s); [eexists; eexists; reflexivity|]
         end.
  eexists; eexists; reflexivity.
Qed.

(** X2.  In a snapshot made by the builder the classification has exactly
    the categories of the expense mapping, in the same order, and the entry
    of each one is the table's entry for it, or the default pair when the
    table has none; either way it has both a [tipo] and a [natureza]. *)
Theorem classificacao_acompanha_gastos
    (email : string) (renda : Q) (fonte : string) (ndependentes : Z)
    (estabilidade : string) (gastos_dict patrimonio_dict : dict Q)
    (dividas_list : list Divida) :
  wf gastos_dict ->
  let d := processar_dados_streamlit email renda fonte ndependentes
             estabilidade gastos_dict patrimonio_dict dividas_list in
  keys (classificacao_gastos d) = keys (gastos_por_categoria d) /\
  (forall k, ~ In k (keys (gastos_por_categoria d)) ->
             get k (classificacao_gastos d) = None) /\
  (forall k, In k (keys (gastos_por_categoria d)) ->
     exists c t n,
       get k (classificacao_gastos d) = Some c /\
       c = [("tipo", t); ("natureza", n)] /\
       (get k classificacao_padrao = Some c \/
        get k classificacao_padrao = None /\ c = classificacao_ausente)).
Proof.
  intros Hwf. cbv zeta.
  rewrite processar_classificacao by exact Hwf.
  rewrite processar_gastos by exact Hwf.
  rewrite keys_map_key. split; [reflexivity|]. split.
  - intros k Hk. apply get_notin. now rewrite keys_map_key.
  - intros k Hk. rewrite get_map_key by exact Hk.
    destruct (classificacao_padrao_completa k) as (t & n & E).
    exists (get_default k classificacao_ausente classificacao_padrao), t, n.
    split; [reflexivity|]. split; [exact E|].
    unfold get_default.
    destruct (get k classificacao_padrao); [left|right]; auto.
Qed.

(** ** Which categories count as essential *)

Lemma categorias_essenciais_eq :
  categorias_essenciais
  = ["Moradia (Aluguel)"; "Alimentação";
     "Transporte (Carro, Transporte Público, Uber...)"; "Saúde"; "Educação";
     "Contas de Consumo (água, luz, gás)"].
Proof. reflexivity. Qed.

Lemma str_in_In (x : string) (xs : list string) :
  str_in x xs = true <-> In x xs.
Proof.
  unfold str_in. rewrite existsb_exists. split.
  - intros [y [Hy E]]. apply String.eqb_eq in E. now subst.
  - intros H. exists x. split; [exact H|apply String.eqb_refl].
Qed.

Lemma essencial_na_tabela_str_in (k : string) :
  essencial_na_tabela k = str_in k categorias_essenciais.
Proof.
  rewrite categorias_essenciais_eq.
  unfold essencial_na_tabela, get_default, classificacao_padrao,
    classificacao_ausente, str_in.
  cbn [get existsb].
  repeat match goal with
         | |- context [if String.eqb k ?s then _ else _] =>
             destruct (String.eqb_spec k s) as [->|?]; [reflexivity|]
         end.
  repeat match goal with
         | H : k <> ?s |- context [String.eqb k ?s] =>
             rewrite (proj2 (String.eqb_neq k s) H)
         end.
  reflexivity.
Qed.

(** X3.  For a snapshot made by the builder, total essential expenses after
    the cash-flow stage is the sum of the strictly positive amounts of six
    categories (housing, food, transport, health, education, utilities);
    leisure, subscriptions, "Outros" and any category the table does not
    know never count. *)
Theorem essenciais_sao_seis_categorias
    (email : string) (renda : Q) (fonte : string) (ndependentes : Z)
    (estabilidade : string) (gastos_dict patrimonio_dict : dict Q)
    (dividas_list : list Divida) :
  wf gastos_dict ->
  let d := analisar_fluxo_caixa
             (processar_dados_streamlit email renda fonte ndependentes
                estabilidade gastos_dict patrimonio_dict dividas_list) in
  total_gastos_essenciais d
  = sum (map snd
           (filter
              (fun kv =>
                 str_in (fst kv)
                   ["Moradia (Aluguel)"; "Alimentação";
                    "Transporte (Carro, Transporte Público, Uber...)";
                    "Saúde"; "Educação";
                    "Contas de Consumo (água, luz, gás)"]
                 && gt (snd kv) 0)
              gastos_dict)).
Proof.
  intros Hwf. cbv zeta.
  rewrite analisar_processar_essenciais by exact Hwf.
  f_equal. f_equal. rewrite <- categorias_essenciais_eq.
  clear Hwf. induction gastos_dict as [|[k v] r IH]; [reflexivity|].
  cbn [filter]. unfold positivo at 1. cbn [fst snd].
  rewrite <- essencial_na_tabela_str_in.
  destruct (gt v 0); cbn [filter fst].
  - destruct (essencial_na_tabela k); cbn [andb]; now rewrite IH.
  - rewrite andb_false_r. exact IH.
Qed.

(** ** The outcome of the two stages *)

Lemma gt_py_max_0 (x : Q) : gt (py_max 0 x) 0 = gt x 0.
Proof. unfold py_max. destruct (gt x 0) eqn:E; [exact E|reflexivity]. Qed.

Lemma py_max_0_pos (x : Q) : gt x 0 = true -> py_max 0 x = x.
Proof. unfold py_max. now intros ->. Qed.

Lemma py_max_0_nonpos (x : Q) : gt x 0 = false -> py_max 0 x = 0.
Proof. unfold py_max. now intros ->. Qed.

Lemma plano_campos_do_fluxo (x : DadosFinanceirosUsuario) :
  total_gastos_mensais (plano_da_reserva x) = total_gastos_mensais x /\
  total_gastos_essenciais (plano_da_reserva x) = total_gastos_essenciais x /\
  saldo_mensal (plano_da_reserva x) = saldo_mensal x /\
  status_fluxo_caixa (plano_da_reserva x) = status_fluxo_caixa x.
Proof. repeat split. Qed.

Lemma soma_nonneg (xs : list Q) : Forall (fun v => 0 < v) xs -> 0 <= soma xs.
Proof.
  induction 1 as [|x r Hx _ IH]; simpl; lra.
Qed.

Lemma Forall_values_filter (P : Q -> Prop) (p : string * Q -> bool)
    (l : dict Q) :
  Forall P (values l) -> Forall P (map snd (filter p l)).
Proof.
  unfold values. induction l as [|kv r IH]; simpl; intros H; [constructor|].
  inversion H; subst. destruct (p kv); simpl; auto.
Qed.

Lemma Qdiv_nonneg (a b : Q) : 0 <= a -> 0 < b -> 0 <= a / b.
Proof.
  intros Ha Hb. unfold Qdiv. apply Qmult_le_0_compat; [exact Ha|].
  apply Qinv_le_0_compat. lra.
Qed.

(** X4.  For a snapshot made by the builder, the two stages leave amounts
    within bounds: both totals and the ideal target are never negative, the
    monthly balance never exceeds the income, the suggested contribution lies
    between 0 and max(0, income), and a finite months-to-target is never
    negative. *)
Theorem executar_analise_limites
    (email : string) (renda : Q) (fonte : string) (ndependentes : Z)
    (estabilidade : string) (gastos_dict patrimonio_dict : dict Q)
    (dividas_list : list Divida) :
  exists d1,
    executar_analise
      (processar_dados_streamlit email renda fonte ndependentes estabilidade
         gastos_dict patrimonio_dict dividas_list) = Ok d1 /\
    0 <= total_gastos_essenciais d1 /\
    0 <= total_gastos_mensais d1 /\
    saldo_mensal d1 <= renda /\
    0 <= valor_reserva_emergencia_ideal d1 /\
    0 <= meta_mensal_reserva d1 /\
    meta_mensal_reserva d1 <= Qmax 0 renda /\
    (forall q, tempo_para_montar_reserva_meses d1 = Fin q -> 0 <= q).
Proof.
  set (d := processar_dados_streamlit email renda fonte ndependentes
              estabilidade gastos_dict patrimonio_dict dividas_list).
  pose proof (processar_gastos_positivos email renda fonte ndependentes
                estabilidade gastos_dict patrimonio_dict dividas_list) as Hpos.
  fold d in Hpos.
  assert (Hrenda : renda_liquida_mensal d = renda) by reflexivity.
  clearbody d.
  exists (plano_da_reserva (analisar_fluxo_caixa d)).
  split; [apply planejar_reserva_emergencia_Ok|].
  set (a := analisar_fluxo_caixa d).
  assert (Ht : 0 <= total_gastos_mensais a).
  { unfold a. rewrite analisar_total_gastos_mensais, sum_soma.
    now apply soma_nonneg. }
  assert (He : 0 <= total_gastos_essenciais a).
  { unfold a. rewrite analisar_total_gastos_essenciais, sum_soma.
    apply soma_nonneg. now apply Forall_values_filter. }
  assert (Hs : saldo_mensal a <= renda).
  { unfold a in *. rewrite analisar_saldo_mensal, Hrenda.
    rewrite analisar_total_gastos_mensais in Ht. lra. }
  assert (Hi : 0 <= valor_reserva_emergencia_ideal (plano_da_reserva a)).
  { rewrite plano_valor_ideal, plano_meses.
    apply Qmult_le_0_compat; [exact He|].
    destruct (str_in _ _); unfold Qle; simpl; lia. }
  destruct (plano_campos_do_fluxo a) as (-> & -> & -> & _).
  split; [exact He|]. split; [exact Ht|]. split; [exact Hs|].
  split; [exact Hi|].
  rewrite plano_meta, plano_tempo. cbv zeta.
  rewrite plano_saldo_mensal_para_reserva, gt_py_max_0.
  pose proof (Q.le_max_l 0 renda) as Hm0.
  pose proof (Q.le_max_r 0 renda) as Hmr.
  destruct (gt (saldo_mensal a) 0) eqn:E.
  - rewrite (py_max_0_pos _ E). apply gt_true in E.
    split; [lra|]. split; [lra|].
    intros q [= <-]. apply Qdiv_nonneg; [exact Hi|exact E].
  - split; [lra|]. split; [exact Hm0|]. discriminate.
Qed.

(** X5.  After the two stages, whatever the snapshot, the plan follows the
    status: the status is surplus exactly when the balance available for the
    reserve is positive, which is exactly when the suggested contribution is
    positive; then both are the whole monthly balance and months-to-target
    is the quotient of the ideal target by that balance.  With any other
    status nothing is available, the contribution is 0 and months-to-target
    is the infinite sentinel. *)
Theorem executar_analise_status_e_plano (d : DadosFinanceirosUsuario) :
  exists d1,
    executar_analise d = Ok d1 /\
    (status_fluxo_caixa d1 = "Superavitário"
     <-> 0 < saldo_mensal_para_reserva d1) /\
    (status_fluxo_caixa d1 = "Superavitário"
     <-> 0 < meta_mensal_reserva d1) /\
    (status_fluxo_caixa d1 = "Superavitário" ->
     saldo_mensal_para_reserva d1 = saldo_mensal d1 /\
     meta_mensal_reserva d1 = saldo_mensal d1 /\
     tempo_para_montar_reserva_meses d1
     = Fin (valor_reserva_emergencia_ideal d1 / saldo_mensal d1)) /\
    (status_fluxo_caixa d1 <> "Superavitário" ->
     saldo_mensal_para_reserva d1 = 0 /\
     meta_mensal_reserva d1 = 0 /\
     tempo_para_montar_reserva_meses d1 = Inf).
Proof.
  exists (plano_da_reserva (analisar_fluxo_caixa d)).
  split; [apply planejar_reserva_emergencia_Ok|].
  pose proof (analisar_status_fluxo_caixa d) as Hst. cbv zeta in Hst.
  set (a := analisar_fluxo_caixa d) in *.
  destruct (plano_campos_do_fluxo a) as (_ & _ & -> & ->).
  rewrite plano_meta, plano_tempo. cbv zeta.
  rewrite plano_saldo_mensal_para_reserva, gt_py_max_0.
  rewrite Hst. clear Hst.
  destruct (gt (saldo_mensal a) 0) eqn:E.
  - rewrite (py_max_0_pos _ E). apply gt_true in E.
    split; [split; [intros _; exact E|reflexivity]|].
    split; [split; [intros _; exact E|reflexivity]|].
    split; [intros _; repeat split|]. intros H. now elim H.
  - rewrite (py_max_0_nonpos _ E).
    assert (Hne : (if lt (saldo_mensal a) 0 then "Deficitário"
                   else "Equilibrado") <> "Superavitário")
      by (destruct (lt _ _); discriminate).
    split; [split; [intros H; now elim Hne|intros H; lra]|].
    split; [split; [intros H; now elim Hne|intros H; lra]|].
    split; [intros H; now elim Hne|]. intros _. repeat split.
Qed.

(** ** The debt part of the form *)

Lemma truthy_true (s : string) : truthy s = true <-> s <> "".
Proof.
  unfold truthy. rewrite negb_true_iff. apply String.eqb_neq.
Qed.

Lemma dividas_list_casos (selecionado especificado : string)
    (original restante taxa : Q) (totais restantes : Z) :
  let t := divida_tipo selecionado especificado in
  let l := dividas_list selecionado especificado original restante taxa
             totais restantes in
  (t <> "" /\ t <> "Outro (não especificado)" /\ 0 < restante /\
   l = [{| tipo := t; valor_original := original;
           valor_restante := restante; taxa_juros_anual := taxa / 100;
           parcelas_totais := totais; parcelas_restantes := restantes |}])
  \/ ((t = "" \/ t = "Outro (não especificado)" \/ restante <= 0) /\ l = []).
Proof.
  cbv zeta. unfold dividas_list. cbv zeta.
  destruct (truthy (divida_tipo selecionado especificado)) eqn:Et.
  - apply truthy_true in Et.
    destruct (String.eqb_spec (divida_tipo selecionado especificado)
                "Outro (não especificado)") as [Eo|Eo]; cbn [negb andb].
    + right. split; [right; left; exact Eo|reflexivity].
    + destruct (gt restante 0) eqn:Eg.
      * apply gt_true in Eg. left. repeat split; assumption.
      * apply gt_false in Eg. right. split; [right; right; exact Eg|reflexivity].
  - cbn [andb]. right. split; [|reflexivity]. left.
    unfold truthy in Et. apply negb_false_iff in Et.
    now apply String.eqb_eq in Et.
Qed.

(** X6.  The form yields at most one debt.  A debt is recorded exactly when
    the type is accepted (not empty and not the "Outro (não especificado)"
    placeholder) and the remaining amount is strictly positive; the recorded
    debt carries the type and the numbers of the form, with the annual rate
    divided by 100. *)
Theorem dividas_list_no_maximo_uma (selecionado especificado : string)
    (original restante taxa : Q) (totais restantes : Z) :
  let t := divida_tipo selecionado especificado in
  let l := dividas_list selecionado especificado original restante taxa
             totais restantes in
  (length l <= 1)%nat /\
  (l <> [] <-> t <> "" /\ t <> "Outro (não especificado)" /\ 0 < restante) /\
  (forall x, In x l ->
     x = {| tipo := t; valor_original := original;
            valor_restante := restante; taxa_juros_anual := taxa / 100;
            parcelas_totais := totais; parcelas_restantes := restantes |} /\
     0 < valor_restante x /\
     tipo x <> "" /\ tipo x <> "Outro (não especificado)").
Proof.
  cbv zeta.
  destruct (dividas_list_casos selecionado especificado original restante taxa
              totais restantes) as [(H1 & H2 & H3 & ->)|[H ->]].
  - split; [cbn; lia|]. split.
    + split; [intros _; auto|discriminate].
    + intros x [<-|[]]. cbn [tipo valor_restante]. auto.
  - split; [cbn; lia|]. split.
    + split; [intros E; now elim E|].
      intros (H1 & H2 & H3). destruct H as [H|[H|H]]; [easy|easy|lra].
    + intros x [].
Qed.

(** X7.  Which submissions record no debt: the placeholder option of the
    select box, "Outro" with an empty description, "Outro" described by the
    very text "Outro (não especificado)", and any remaining amount that is
    not strictly positive.  Every other option of the select box with a
    positive remaining amount records one debt of that type. *)
Theorem dividas_list_rejeicoes (selecionado especificado : string)
    (original restante taxa : Q) (totais restantes : Z) :
  let l := dividas_list selecionado especificado original restante taxa
             totais restantes in
  (selecionado = "Selecione o tipo da dívida" -> l = []) /\
  (selecionado = "Outro" -> especificado = "" -> l = []) /\
  (selecionado = "Outro" -> especificado = "Outro (não especificado)" ->
   l = []) /\
  (restante <= 0 -> l = []) /\
  (In selecionado opcoes_divida ->
   selecionado <> "Selecione o tipo da dívida" ->
   selecionado <> "Outro" ->
   0 < restante ->
   exists x, l = [x] /\ tipo x = selecionado).
Proof.
  cbv zeta.
  destruct (dividas_list_casos selecionado especificado original restante taxa
              totais restantes) as [(H1 & H2 & H3 & E)|[H E]];
    cbv zeta in *; rewrite E; clear E.
  - split; [intros ->; now elim H1|].
    split; [intros -> ->; now elim H2|].
    split; [intros -> ->; now elim H2|].
    split; [intros Hr; lra|].
    intros Hin Hs Ho _. eexists. split; [reflexivity|]. cbn [tipo].
    unfold divida_tipo.
    rewrite (proj2 (String.eqb_neq _ _) Ho), (proj2 (String.eqb_neq _ _) Hs).
    reflexivity.
  - repeat (split; [reflexivity|]).
    intros Hin Hs Ho Hr. exfalso.
    unfold divida_tipo in H.
    rewrite (proj2 (String.eqb_neq _ _) Ho), (proj2 (String.eqb_neq _ _) Hs)
      in H.
    destruct H as [H|[H|H]]; [|  |lra].
    + subst selecionado. unfold opcoes_divida in Hin. cbn [In] in Hin.
      intuition discriminate.
    + subst selecionado. unfold opcoes_divida in Hin. cbn [In] in Hin.
      intuition discriminate.
Qed.

(** ** The tables of the spreadsheet *)

Lemma fold_left_snoc {X Y : Type} (f : X -> Y) (xs : list X) (acc : list Y) :
  fold_left (fun rows x => rows ++ [f x]) xs acc = acc ++ map f xs.
Proof.
  revert acc. induction xs as [|x r IH]; intros acc; simpl.
  - now rewrite app_nil_r.
  - rewrite IH, <- app_assoc. reflexivity.
Qed.

(** The row of one expense, as the loop of [gastos_rows] builds it. *)
Lemma gastos_rows_eq (d : DadosFinanceirosUsuario) :
  gastos_rows d
  = gastos_header
    :: map (fun kv =>
              let classif :=
                get_default (V:=dict string) (fst kv)
                  [("tipo", "N/A"); ("natureza", "N/A")]
                  (classificacao_gastos d) in
              [CTexto (fst kv); CNumero (snd kv);
               CTexto (get_default "tipo" "N/A" classif);
               CTexto (get_default "natureza" "N/A" classif)])
         (gastos_por_categoria d).
Proof.
  unfold gastos_rows, items. cbv zeta.
  rewrite (fold_left_snoc
             (fun kv =>
                [CTexto (fst kv); CNumero (snd kv);
                 CTexto (get_default "tipo" "N/A"
                           (get_default (V:=dict string) (fst kv)
                              [("tipo", "N/A"); ("natureza", "N/A")]
                              (classificacao_gastos d)));
                 CTexto (get_default "natureza" "N/A"
                           (get_default (V:=dict string) (fst kv)
                              [("tipo", "N/A"); ("natureza", "N/A")]
                              (classificacao_gastos d)))])).
  reflexivity.
Qed.

(** X8.  The expense table has the header and then one row of four cells per
    entry of the expense mapping, in the order of the mapping; the first two
    cells of a row are the category and its amount. *)
Theorem gastos_rows_estrutura (d : DadosFinanceirosUsuario) :
  length (gastos_rows d) = S (length (gastos_por_categoria d)) /\
  nth_error (gastos_rows d) 0 = Some gastos_header /\
  Forall (fun row => length row = 4%nat) (gastos_rows d) /\
  (forall i k v,
      nth_error (gastos_por_categoria d) i = Some (k, v) ->
      exists t n,
        nth_error (gastos_rows d) (S i)
        = Some [CTexto k; CNumero v; CTexto t; CTexto n]).
Proof.
  rewrite gastos_rows_eq. cbn [length nth_error].
  rewrite length_map. split; [reflexivity|]. split; [reflexivity|]. split.
  - constructor; [reflexivity|]. apply Forall_map, Forall_forall.
    intros kv _. reflexivity.
  - intros i k v H. eexists; eexists.
    rewrite nth_error_map, H. reflexivity.
Qed.

Lemma classificacao_padrao_sem_na (k : string) :
  exists t n,
    get_default k classificacao_ausente classificacao_padrao
    = [("tipo", t); ("natureza", n)] /\ t <> "N/A" /\ n <> "N/A".
Proof.
  unfold get_default, classificacao_padrao, classificacao_ausente.
  cbn [get].
  repeat match goal with
         | |- context [if String.eqb k ?s then _ else _] =>
             destruct (String.eqb k s);
             [eexists; eexists; split; [reflexivity|split; discriminate]|]
         end.
  eexists; eexists; split; [reflexivity|split; discriminate].
Qed.

(** X9.  When the expense and classification mappings of a record are those
    of a snapshot made by the builder, the "N/A" fallback of the expense
    table is never used: the Tipo and Natureza cells of every row are the
    entries of the classification and differ from "N/A". *)
Theorem gastos_rows_sem_na
    (email : string) (renda : Q) (fonte : string) (ndependentes : Z)
    (estabilidade : string) (gastos_dict patrimonio_dict : dict Q)
    (dividas_list : list Divida) (d : DadosFinanceirosUsuario) :
  let b := processar_dados_streamlit email renda fonte ndependentes
             estabilidade gastos_dict patrimonio_dict dividas_list in
  wf gastos_dict ->
  gastos_por_categoria d = gastos_por_categoria b ->
  classificacao_gastos d = classificacao_gastos b ->
  forall i k v,
    nth_error (gastos_por_categoria d) i = Some (k, v) ->
    exists t n,
      nth_error (gastos_rows d) (S i)
      = Some [CTexto k; CNumero v; CTexto t; CTexto n] /\
      get k (classificacao_gastos d) = Some [("tipo", t); ("natureza", n)] /\
      t <> "N/A" /\ n <> "N/A".
Proof.
  cbv zeta. intros Hwf Hg Hc i k v Hi.
  assert (Hk : In k (keys (filter positivo gastos_dict))).
  { rewrite <- (processar_gastos email renda fonte ndependentes estabilidade
                  gastos_dict patrimonio_dict dividas_list Hwf), <- Hg.
    apply nth_error_In in Hi. eapply In_keys, Hi. }
  destruct (classificacao_padrao_sem_na k) as (t & n & E & Ht & Hn).
  assert (Hget : get k (classificacao_gastos d)
                 = Some [("tipo", t); ("natureza", n)]).
  { rewrite Hc, processar_classificacao by exact Hwf.
    rewrite get_map_key by exact Hk. now rewrite E. }
  exists t, n. split; [|split; [exact Hget|split; assumption]].
  rewrite gastos_rows_eq. cbn [nth_error].
  rewrite nth_error_map, Hi. cbn [option_map fst snd]. cbv zeta.
  unfold get_default at 2 4. rewrite Hget. reflexivity.
Qed.

Lemma dividas_rows_eq (d : DadosFinanceirosUsuario) :
  dividas_rows d
  = dividas_header
    :: match dividas d with
       | [] => [[CTexto "Nenhuma dívida informada."; CTexto ""; CTexto "";
                 CTexto ""; CTexto ""; CTexto ""]]
       | _ :: _ =>
           map (fun divida =>
                  [CTexto (tipo divida); CNumero (valor_original divida);
                   CNumero (valor_restante divida);
                   CNumero (taxa_juros_anual divida * 100);
                   CInteiro (parcelas_totais divida);
                   CInteiro (parcelas_restantes divida)])
             (dividas d)
       end.
Proof.
  unfold dividas_rows. cbv zeta.
  rewrite (fold_left_snoc
             (fun divida =>
                [CTexto (tipo divida); CNumero (valor_original divida);
                 CNumero (valor_restante divida);
                 CNumero (taxa_juros_anual divida * 100);
                 CInteiro (parcelas_totais divida);
                 CInteiro (parcelas_restantes divida)])).
  destruct (dividas d) as [|x r]; reflexivity.
Qed.

(** X10.  The debt table never consists of the header alone: with no debt it
    is the header and one placeholder row, otherwise the header and one row
    per debt, the rate shown multiplied by 100; every row has six cells, and
    with at most one debt, as the form gives, the table has exactly two
    rows. *)
Theorem dividas_rows_estrutura (d : DadosFinanceirosUsuario) :
  nth_error (dividas_rows d) 0 = Some dividas_header /\
  (2 <= length (dividas_rows d))%nat /\
  Forall (fun row => length row = 6%nat) (dividas_rows d) /\
  (dividas d = [] ->
   dividas_rows d
   = [dividas_header;
      [CTexto "Nenhuma dívida informada."; CTexto ""; CTexto ""; CTexto "";
       CTexto ""; CTexto ""]]) /\
  (dividas d <> [] ->
   length (dividas_rows d) = S (length (dividas d)) /\
   forall i x,
     nth_error (dividas d) i = Some x ->
     nth_error (dividas_rows d) (S i)
     = Some [CTexto (tipo x); CNumero (valor_original x);
             CNumero (valor_restante x); CNumero (taxa_juros_anual x * 100);
             CInteiro (parcelas_totais x); CInteiro (parcelas_restantes x)]) /\
  ((length (dividas d) <= 1)%nat -> length (dividas_rows d) = 2%nat).
Proof.
  rewrite dividas_rows_eq. destruct (dividas d) as [|x r] eqn:E.
  - split; [reflexivity|]. split; [cbn; lia|].
    split; [repeat constructor|]. split; [reflexivity|].
    split; [intros H; now elim H|]. reflexivity.
  - split; [reflexivity|]. split; [cbn; lia|]. split.
    + constructor; [reflexivity|]. apply Forall_map, Forall_forall.
      intros y _. reflexivity.
    + split; [discriminate|]. split.
      * intros _. split; [cbn [length]; now rewrite length_map|].
        intros i y Hi. cbn [nth_error]. rewrite nth_error_map, Hi.
        reflexivity.
      * cbn [length]. rewrite length_map. cbn [length]. intros H.
        destruct r; [reflexivity|cbn in H; lia].
Qed.

(** ** An unreachable reserve, in the summary sheet and in the report *)

(** X11.  The months-to-target cell of the summary sheet and the
    months-to-target line of the report are decided by the same test.  When
    the stored value is the infinite sentinel the cell is the text "Saldo
    insuficiente" and the line is "Saldo insuficiente para iniciar"; when it
    is a finite number the cell is that number and the line prints it.  After
    the two stages a monthly balance that is zero or negative always gives
    the two texts. *)
Theorem reserva_inalcancavel_resumo_e_relatorio (F : Formato)
    (d : DadosFinanceirosUsuario) :
  (forall x,
      (tempo_para_montar_reserva_meses x = Inf ->
       nth_error (resumo_data x) 11
       = Some [CTexto "Tempo Estimado para Montar (meses)";
               CTexto "Saldo insuficiente"] /\
       nth_error (relatorio_parts F x) 13
       = Some "Saldo insuficiente para iniciar") /\
      (forall q,
          tempo_para_montar_reserva_meses x = Fin q ->
          nth_error (resumo_data x) 11
          = Some [CTexto "Tempo Estimado para Montar (meses)";
                  CFloat (Fin q)] /\
          nth_error (relatorio_parts F x) 13
          = Some ("Tempo Estimado para Atingir: " ++ f1 F (Fin q)
                  ++ " meses")%string)) /\
  exists d1,
    executar_analise d = Ok d1 /\
    (saldo_mensal d1 <= 0 ->
     nth_error (resumo_data d1) 11
     = Some [CTexto "Tempo Estimado para Montar (meses)";
             CTexto "Saldo insuficiente"] /\
     nth_error (relatorio_parts F d1) 13
     = Some "Saldo insuficiente para iniciar").
Proof.
  assert (Hx : forall x,
             (tempo_para_montar_reserva_meses x = Inf ->
              nth_error (resumo_data x) 11
              = Some [CTexto "Tempo Estimado para Montar (meses)";
                      CTexto "Saldo insuficiente"] /\
              nth_error (relatorio_parts F x) 13
              = Some "Saldo insuficiente para iniciar") /\
             (forall q,
                 tempo_para_montar_reserva_meses x = Fin q ->
                 nth_error (resumo_data x) 11
                 = Some [CTexto "Tempo Estimado para Montar (meses)";
                         CFloat (Fin q)] /\
                 nth_error (relatorio_parts F x) 13
                 = Some ("Tempo Estimado para Atingir: " ++ f1 F (Fin q)
                         ++ " meses")%string)).
  { intros x. unfold resumo_data, relatorio_parts. cbn [nth_error].
    split.
    - intros ->. split; reflexivity.
    - intros q ->. split; reflexivity. }
  split; [exact Hx|].
  exists (plano_da_reserva (analisar_fluxo_caixa d)).
  split; [apply planejar_reserva_emergencia_Ok|].
  set (a := analisar_fluxo_caixa d).
  intros Hs. apply (proj1 (Hx (plano_da_reserva a))).
  rewrite plano_tempo. cbv zeta.
  rewrite plano_saldo_mensal_para_reserva, gt_py_max_0.
  destruct (plano_campos_do_fluxo a) as (_ & _ & E & _). rewrite E in Hs.
  assert (Eg : gt (saldo_mensal a) 0 = false) by now apply gt_false.
  now rewrite Eg.
Qed.

(** ** The prompt sent to the language model *)

Section Prompt.

Variables (F : Formato) (d : DadosFinanceirosUsuario).

(** The body of the loop over the expenses. *)
Let corpo (parts : list string) (kv : string * Q) : resposta (list string) :=
  let categoria := fst kv in
  let valor := snd kv in
  let classif :=
    get_default (V:=dict string) categoria
      [("tipo", "N/A"); ("natureza", "N/A")] (classificacao_gastos d) in
  t <-? getitem "tipo" classif ;;
  n <-? getitem "natureza" classif ;;
  Retorna
    (parts ++ [("- " ++ categoria ++ ": R$ " ++ f2 F valor
                ++ " (Tipo: " ++ t ++ ", Natureza: " ++ n ++ ")")%string]).

Lemma corpo_casos (parts : list string) (kv : string * Q) :
  (~ classificacao_incompleta d (fst kv) /\
   exists ps, corpo parts kv = Retorna ps)
  \/ (classificacao_incompleta d (fst kv) /\
      exists chave, corpo parts kv = Levanta (KeyError chave) /\
                    (chave = "tipo" \/ chave = "natureza")).
Proof.
  unfold corpo, classificacao_incompleta, get_default, getitem. cbv zeta.
  destruct (get (fst kv) (classificacao_gastos d)) as [c|].
  - destruct (get "tipo" c) as [t|] eqn:Et; cbn [liga_resposta].
    + destruct (get "natureza" c) as [n|] eqn:En; cbn [liga_resposta].
      * left. split; [|eexists; reflexivity].
        intros (c' & [= <-] & [H|H]); congruence.
      * right. split; [exists c; auto|]. exists "natureza". auto.
    + right. split; [exists c; auto|]. exists "tipo". auto.
  - left. split; [intros (c & H & _); discriminate|].
    cbn. eexists; reflexivity.
Qed.

Lemma para_cada_corpo (l : list (string * Q)) (parts : list string) :
  (Forall (fun kv => ~ classificacao_incompleta d (fst kv)) l /\
   exists ps, para_cada corpo l parts = Retorna ps)
  \/ (Exists (fun kv => classificacao_incompleta d (fst kv)) l /\
      exists chave, para_cada corpo l parts = Levanta (KeyError chave) /\
                    (chave = "tipo" \/ chave = "natureza")).
Proof.
  revert parts. induction l as [|kv r IH]; intros parts.
  - left. split; [constructor|]. eexists; reflexivity.
  - cbn [para_cada].
    destruct (corpo_casos parts kv) as [[Hn [ps E]]|[Hi (ch & E & Hch)]];
      rewrite E; cbn [liga_resposta].
    + destruct (IH ps) as [[Hall Hps]|[Hex Hch]].
      * left. split; [now constructor|exact Hps].
      * right. split; [now apply Exists_cons_tl|exact Hch].
    + right. split; [now apply Exists_cons_hd|]. exists ch. auto.
Qed.

Lemma prompt_gastos_casos (parts : list string) :
  ((forall k, In k (keys (gastos_por_categoria d)) ->
              ~ classificacao_incompleta d k) /\
   exists ps, prompt_gastos F d parts = Retorna ps)
  \/ ((exists k, In k (keys (gastos_por_categoria d)) /\
                 classificacao_incompleta d k) /\
      exists chave, prompt_gastos F d parts = Levanta (KeyError chave) /\
                    (chave = "tipo" \/ chave = "natureza")).
Proof.
  unfold prompt_gastos. fold corpo. unfold items.
  destruct (gastos_por_categoria d) as [|kv r] eqn:Eg.
  - left. split; [intros k []|]. cbn. eexists; reflexivity.
  - cbn [length Nat.eqb negb]. rewrite <- Eg.
    destruct (para_cada_corpo (gastos_por_categoria d) parts)
      as [[Hall Hps]|[Hex Hch]].
    + left. split; [|exact Hps]. intros k Hk. unfold keys in Hk.
      apply in_map_iff in Hk. destruct Hk as [kv' [<- Hin]].
      rewrite Forall_forall in Hall. now apply Hall.
    + right. split; [|exact Hch]. apply Exists_exists in Hex.
      destruct Hex as [kv' [Hin Hi]]. exists (fst kv').
      split; [now apply in_map|exact Hi].
Qed.

End Prompt.

(** X12.  Building the prompt raises exactly when some category of the
    expense mapping has a stored classification without a [tipo] or a
    [natureza]; the exception is then a [KeyError] on that key, and
    [gerar_analise_ia] lets it through: the model is not called and nothing
    is shown. *)
Theorem prompt_parts_KeyError (F : Formato) (d : DadosFinanceirosUsuario) :
  ((exists e, prompt_parts F d = Levanta e)
   <-> exists k, In k (keys (gastos_por_categoria d)) /\
                 classificacao_incompleta d k) /\
  (forall e, prompt_parts F d = Levanta e ->
             e = KeyError "tipo" \/ e = KeyError "natureza") /\
  (forall (Mundo : Type) (model_ia : ModeloIA Mundo) s e,
      prompt_parts F d = Levanta e ->
      gerar_analise_ia F d model_ia s = (Levanta e, s)).
Proof.
  unfold prompt_parts.
  destruct (prompt_gastos_casos F d (prompt_inicio F d))
    as [[Hall [ps E]]|[Hex (ch & E & Hch)]].
  - split; [|split].
    + split.
      * rewrite E. cbn. intros [e H]. discriminate.
      * intros (k & Hk & Hi). now elim (Hall k Hk).
    + rewrite E. cbn. discriminate.
    + intros Mundo model_ia s e. rewrite E. cbn. discriminate.
  - split; [|split].
    + split; [intros _; exact Hex|]. intros _. rewrite E. cbn. eauto.
    + intros e. rewrite E. cbn. intros [= <-].
      destruct Hch as [->| ->]; auto.
    + intros Mundo model_ia s e H.
      unfold gerar_analise_ia, liga, puro, prompt_parts. rewrite H.
      reflexivity.
Qed.

Lemma get_map_key_Some {V : Type} (f : string -> V) (ks : list string)
    (k : string) (v : V) :
  get k (map (fun c => (c, f c)) ks) = Some v -> v = f k.
Proof.
  induction ks as [|k' r IH]; simpl; [discriminate|].
  destruct (String.eqb_spec k k') as [->|_]; [now intros [= <-]|exact IH].
Qed.

Lemma processar_classificacao_completa
    (email : string) (renda : Q) (fonte : string) (ndependentes : Z)
    (estabilidade : string) (gastos_dict patrimonio_dict : dict Q)
    (dividas_list : list Divida) (d : DadosFinanceirosUsuario) (k : string) :
  wf gastos_dict ->
  classificacao_gastos d
  = classificacao_gastos
      (processar_dados_streamlit email renda fonte ndependentes estabilidade
         gastos_dict patrimonio_dict dividas_list) ->
  ~ classificacao_incompleta d k.
Proof.
  intros Hwf Hc (c & Hget & H).
  rewrite Hc, processar_classificacao in Hget by exact Hwf.
  apply get_map_key_Some in Hget.
  destruct (classificacao_padrao_completa k) as (t & n & E).
  rewrite E in Hget. subst c. cbn in H. destruct H; discriminate.
Qed.

Lemma gerar_analise_ia_casos {Mundo : Type} (F : Formato)
    (d : DadosFinanceirosUsuario) (model_ia : ModeloIA Mundo)
    (ps : list string) (w : Mundo) (tela : list mensagem) :
  prompt_parts F d = Retorna ps ->
  gerar_analise_ia F d model_ia (w, tela)
  = match model_ia (String.concat nl ps) w with
    | (Retorna texto, w') => (Retorna texto, (w', tela))
    | (Levanta e, w') =>
        (Retorna
           "Não foi possível gerar uma análise detalhada da IA neste momento.",
         (w', tela ++ [(StError,
                        ("Erro ao chamar a IA Generativa: "
                         ++ str_excecao e)%string)]))
    end.
Proof.
  intros E. unfold gerar_analise_ia, liga, puro, tentar, chama, st, retorna.
  rewrite E. cbn [fst snd].
  destruct (model_ia (String.concat nl ps) w) as [[texto|e] w']; reflexivity.
Qed.

(** X13.  On a record whose expense and classification mappings are those of
    a snapshot made by the builder, asking the model for feedback never
    raises.  The prompt is built; when the model answers, its text becomes
    the feedback and nothing is shown; when the model fails, the feedback is
    the fixed fallback sentence and one error message is shown.  Either way
    only the feedback attribute of the record changes. *)
Theorem gerar_feedback_comportamento_ia_nao_falha
    (email : string) (renda : Q) (fonte : string) (ndependentes : Z)
    (estabilidade : string) (gastos_dict patrimonio_dict : dict Q)
    (dividas_list : list Divida)
    (F : Formato) (d : DadosFinanceirosUsuario) :
  let b := processar_dados_streamlit email renda fonte ndependentes
             estabilidade gastos_dict patrimonio_dict dividas_list in
  wf gastos_dict ->
  classificacao_gastos d = classificacao_gastos b ->
  exists ps,
    prompt_parts F d = Retorna ps /\
    forall (Mundo : Type) (model_ia : ModeloIA Mundo) (w : Mundo)
           (tela : list mensagem),
      (forall texto w',
          model_ia (String.concat nl ps) w = (Retorna texto, w') ->
          gerar_feedback_comportamento_ia F d model_ia (w, tela)
          = (Retorna (set_feedback_ia_comportamento texto d), (w', tela))) /\
      (forall e w',
          model_ia (String.concat nl ps) w = (Levanta e, w') ->
          gerar_feedback_comportamento_ia F d model_ia (w, tela)
          = (Retorna
               (set_feedback_ia_comportamento
                  "Não foi possível gerar uma análise detalhada da IA neste momento."
                  d),
             (w', tela ++ [(StError,
                            ("Erro ao chamar a IA Generativa: "
                             ++ str_excecao e)%string)]))).
Proof.
  cbv zeta. intros Hwf Hc.
  assert (Hps : exists ps, prompt_parts F d = Retorna ps).
  { unfold prompt_parts.
    destruct (prompt_gastos_casos F d (prompt_inicio F d))
      as [[_ [ps E]]|[(k & _ & Hi) _]].
    - rewrite E. cbn. eexists; reflexivity.
    - exfalso. revert Hi.
      eapply processar_classificacao_completa; eassumption. }
  destruct Hps as [ps Hps]. exists ps. split; [exact Hps|].
  intros Mundo model_ia w tela. split.
  - intros texto w' Hm. unfold gerar_feedback_comportamento_ia, liga.
    rewrite (gerar_analise_ia_casos F d model_ia ps w tela Hps), Hm.
    reflexivity.
  - intros e w' Hm. unfold gerar_feedback_comportamento_ia, liga.
    rewrite (gerar_analise_ia_casos F d model_ia ps w tela Hps), Hm.
    reflexivity.
Qed.

(** The last line of the prompt. *)
Lemma prompt_parts_ultima (F : Formato) (d : DadosFinanceirosUsuario)
    (ps : list string) :
  prompt_parts F d = Retorna ps ->
  last ps ""
  = if gt (saldo_mensal d) 0 && gt (meta_mensal_reserva d) 0 then
      ("Com o saldo atual de R$ " ++ f2 F (saldo_mensal d)
       ++ " e meta mensal de R$ " ++ f2 F (meta_mensal_reserva d)
       ++ ", você está no caminho para construir a reserva.")%string
    else if le (saldo_mensal d) 0 then
      "Seu saldo mensal não permite acumular para a reserva no momento."
    else (nl ++ "--- Progresso Atual (Baseado no Saldo Mensal e Meta) ---")%string.
Proof.
  unfold prompt_parts.
  destruct (prompt_gastos F d (prompt_inicio F d)) as [ps0|e];
    cbn [liga_resposta]; [|discriminate].
  intros [= <-]. unfold prompt_progresso. cbv zeta.
  destruct (gt (saldo_mensal d) 0 && gt (meta_mensal_reserva d) 0);
    [|destruct (le (saldo_mensal d) 0)];
    rewrite ?app_assoc; apply last_last.
Qed.

(** X14.  The progress section of the prompt has a gap: with a positive
    balance and a contribution that is not positive neither sentence is
    added.  After the two stages that never happens: the prompt ends with
    the "on the way" sentence when the balance is positive and with the
    "cannot accumulate" sentence otherwise. *)
Theorem prompt_progresso_apos_estagios (F : Formato)
    (d : DadosFinanceirosUsuario) :
  (forall x ps,
      prompt_parts F x = Retorna ps ->
      0 < saldo_mensal x -> meta_mensal_reserva x <= 0 ->
      last ps ""
      = (nl ++ "--- Progresso Atual (Baseado no Saldo Mensal e Meta) ---")%string)
  /\
  exists d1,
    executar_analise d = Ok d1 /\
    forall ps,
      prompt_parts F d1 = Retorna ps ->
      (0 < saldo_mensal d1 ->
       last ps ""
       = ("Com o saldo atual de R$ " ++ f2 F (saldo_mensal d1)
          ++ " e meta mensal de R$ " ++ f2 F (meta_mensal_reserva d1)
          ++ ", você está no caminho para construir a reserva.")%string) /\
      (saldo_mensal d1 <= 0 ->
       last ps ""
       = "Seu saldo mensal não permite acumular para a reserva no momento.").
Proof.
  split.
  - intros x ps Hps Hs Hm. rewrite (prompt_parts_ultima F x ps Hps).
    apply gt_true in Hs. rewrite Hs.
    assert (Eg : gt (meta_mensal_reserva x) 0 = false) by now apply gt_false.
    rewrite Eg. cbn [andb].
    assert (El : le (saldo_mensal x) 0 = false).
    { apply gt_true in Hs. unfold le.
      destruct (Qle_bool (saldo_mensal x) 0) eqn:E; [|reflexivity].
      apply Qle_bool_iff in E. lra. }
    now rewrite El.
  - exists (plano_da_reserva (analisar_fluxo_caixa d)).
    split; [apply planejar_reserva_emergencia_Ok|].
    intros ps Hps. rewrite (prompt_parts_ultima F _ ps Hps).
    set (a := analisar_fluxo_caixa d).
    rewrite plano_meta. cbv zeta.
    rewrite plano_saldo_mensal_para_reserva, gt_py_max_0.
    destruct (plano_campos_do_fluxo a) as (_ & _ & -> & _).
    destruct (gt (saldo_mensal a) 0) eqn:E.
    + rewrite (py_max_0_pos _ E), E. cbn [andb].
      split; [reflexivity|]. apply gt_true in E. intros H. lra.
    + cbn [andb]. apply gt_false in E.
      assert (El : le (saldo_mensal a) 0 = true)
        by now apply Qle_bool_iff.
      rewrite El. split; [intros H; lra|reflexivity].
Qed.

(** ** Actions and the page *)

Section Acoes.

Context {Mundo : Type}.
Variable P : list mensagem -> Prop.
Hypothesis P_nil : P [].
Hypothesis P_app : forall l1 l2, P l1 -> P l2 -> P (l1 ++ l2).

Lemma acrescenta_retorna {A : Type} (a : A) :
  acrescenta P (retorna (Mundo:=Mundo) a).
Proof.
  intros w. exists (Retorna a), w, []. split; [exact P_nil|].
  intros tela. unfold retorna. now rewrite app_nil_r.
Qed.

Lemma acrescenta_levanta {A : Type} (e : excecao) :
  acrescenta P (levanta (Mundo:=Mundo) (A:=A) e).
Proof.
  intros w. exists (Levanta e), w, []. split; [exact P_nil|].
  intros tela. unfold levanta. now rewrite app_nil_r.
Qed.

Lemma acrescenta_chama {A : Type} (c : Mundo -> resposta A * Mundo) :
  acrescenta P (chama c).
Proof.
  intros w. exists (fst (c w)), (snd (c w)), []. split; [exact P_nil|].
  intros tela. unfold chama. cbn [fst snd]. destruct (c w) as [r w'].
  cbn [fst snd]. now rewrite app_nil_r.
Qed.

Lemma acrescenta_st (n : nivel) (msg : string) :
  P [(n, msg)] -> acrescenta P (st (Mundo:=Mundo) n msg).
Proof.
  intros H w. exists (Retorna tt), w, [(n, msg)]. split; [exact H|].
  intros tela. reflexivity.
Qed.

Lemma acrescenta_liga {A B : Type} (m : Acao Mundo A)
    (k : A -> Acao Mundo B) :
  acrescenta P m -> (forall a, acrescenta P (k a)) ->
  acrescenta P (liga m k).
Proof.
  intros Hm Hk w. destruct (Hm w) as (r & w1 & l1 & Hl1 & E1).
  destruct r as [a|e].
  - destruct (Hk a w1) as (r2 & w2 & l2 & Hl2 & E2).
    exists r2, w2, (l1 ++ l2). split; [now apply P_app|].
    intros tela. unfold liga. rewrite E1, E2. now rewrite app_assoc.
  - exists (Levanta e), w1, l1. split; [exact Hl1|].
    intros tela. unfold liga. now rewrite E1.
Qed.

Lemma acrescenta_tentar {A : Type} (m : Acao Mundo A)
    (h : excecao -> Acao Mundo A) :
  acrescenta P m -> (forall e, acrescenta P (h e)) ->
  acrescenta P (tentar m h).
Proof.
  intros Hm Hh w. destruct (Hm w) as (r & w1 & l1 & Hl1 & E1).
  destruct r as [a|e].
  - exists (Retorna a), w1, l1. split; [exact Hl1|].
    intros tela. unfold tentar. now rewrite E1.
  - destruct (Hh e w1) as (r2 & w2 & l2 & Hl2 & E2).
    exists r2, w2, (l1 ++ l2). split; [now apply P_app|].
    intros tela. unfold tentar. rewrite E1, E2. now rewrite app_assoc.
Qed.

End Acoes.

Lemma sem_erro_nil : sem_erro [].
Proof. intros msg []. Qed.

Lemma sem_erro_app (l1 l2 : list mensagem) :
  sem_erro l1 -> sem_erro l2 -> sem_erro (l1 ++ l2).
Proof.
  intros H1 H2 msg Hin. apply in_app_or in Hin.
  destruct Hin; [now apply (H1 msg)|now apply (H2 msg)].
Qed.

Lemma sem_erro_um (n : nivel) (msg : string) :
  n <> StError -> sem_erro [(n, msg)].
Proof. intros Hn m [[= E _]|[]]. now apply Hn. Qed.

(** ** Publishing the spreadsheet *)

Lemma tratar_erro_geral_eq {Mundo : Type} (e : excecao) (w : Mundo)
    (tela : list mensagem) :
  tratar_erro_geral e (w, tela)
  = (Retorna None,
     (w, tela
         ++ [(StError,
              ("ERRO GERAL ao gerar/atualizar a planilha Google Sheets: "
               ++ str_excecao e)%string);
             (StWarning,
              "Verifique as permissões da sua conta de serviço no Google Cloud Console.")])).
Proof.
  unfold tratar_erro_geral, liga, st, retorna. cbn [fst snd].
  now rewrite <- app_assoc.
Qed.

(** The function, by the outcome of [open] and of [create]. *)
Lemma gerar_planilha_casos {Mundo Planilha Aba : Type}
    (c : ClienteSheets Mundo Planilha Aba) (d : DadosFinanceirosUsuario)
    (sheet_name : string) (w : Mundo) (tela : list mensagem) :
  gerar_planilha_google_sheets d (Some c) sheet_name (w, tela)
  = match open_ c sheet_name w with
    | (Retorna spreadsheet, w1) =>
        tentar (publicar c d spreadsheet) tratar_erro_geral (w1, tela)
    | (Levanta (SpreadsheetNotFound msg), w1) =>
        match create c sheet_name w1 with
        | (Retorna spreadsheet, w2) =>
            tentar (publicar c d spreadsheet) tratar_erro_geral
              (w2, tela
                   ++ [(StWarning,
                        ("Planilha '" ++ sheet_name
                         ++ "' não encontrada. Criando nova planilha...")%string);
                       (StSuccess,
                        ("Planilha '" ++ sheet_name
                         ++ "' criada com sucesso.")%string)])
        | (Levanta create_error, w2) =>
            (Retorna None,
             (w2, tela
                  ++ [(StWarning,
                       ("Planilha '" ++ sheet_name
                        ++ "' não encontrada. Criando nova planilha...")%string);
                      (StError,
                       ("ERRO GRAVE: Falha ao criar a planilha '"
                        ++ sheet_name ++ "'.")%string);
                      (StError,
                       ("Detalhes do erro de criação: "
                        ++ str_excecao create_error)%string);
                      (StWarning,
                       "Causas comuns: Permissões insuficientes da conta de serviço no Google Drive para criar arquivos.")]))
        end
    | (Levanta e, w1) => tratar_erro_geral e (w1, tela)
    end.
Proof.
  unfold gerar_planilha_google_sheets.
  unfold tentar at 1. unfold chama at 1. cbn [fst snd].
  destruct (open_ c sheet_name w) as [[spreadsheet|e] w1].
  - reflexivity.
  - destruct e as [k|msg|msg|msg|msg]; try reflexivity.
    unfold liga at 1. unfold st at 1. cbn [fst snd].
    unfold liga at 1 2. unfold chama at 1. cbn [fst snd].
    destruct (create c sheet_name w1) as [[spreadsheet|ce] w2].
    + unfold st at 1. unfold retorna at 1. cbn [fst snd].
      now rewrite <- app_assoc.
    + unfold liga, st, retorna. cbn [fst snd].
      now rewrite <- !app_assoc.
Qed.

Lemma atualizar_aba_acrescenta {Mundo Planilha Aba : Type}
    (c : ClienteSheets Mundo Planilha Aba) (P : list mensagem -> Prop)
    (spreadsheet : Planilha) (titulo rows cols : string) (dados : tabela) :
  P [] -> (forall l1 l2, P l1 -> P l2 -> P (l1 ++ l2)) ->
  acrescenta P (atualizar_aba c spreadsheet titulo rows cols dados).
Proof.
  intros P0 Pa. unfold atualizar_aba.
  apply acrescenta_liga; [exact Pa| |].
  - apply acrescenta_tentar; [exact Pa| |].
    + now apply acrescenta_chama.
    + intros e. destruct e;
        (now apply acrescenta_chama) || (now apply acrescenta_levanta).
  - intros ws. apply acrescenta_liga; [exact Pa| |].
    + now apply acrescenta_chama.
    + intros _. now apply acrescenta_chama.
Qed.

Lemma escrever_abas_acrescenta {Mundo Planilha Aba : Type}
    (c : ClienteSheets Mundo Planilha Aba) (d : DadosFinanceirosUsuario)
    (P : list mensagem -> Prop) (spreadsheet : Planilha) :
  P [] -> (forall l1 l2, P l1 -> P l2 -> P (l1 ++ l2)) ->
  acrescenta P (escrever_abas c d spreadsheet).
Proof.
  intros P0 Pa. unfold escrever_abas.
  repeat (apply acrescenta_liga;
          [exact Pa|now apply atualizar_aba_acrescenta|intros _]).
  apply acrescenta_liga; [exact Pa| |].
  - now apply acrescenta_chama.
  - intros u. now apply acrescenta_retorna.
Qed.

(** Sharing never raises and shows no error message. *)
Lemma compartilhar_casos {Mundo Planilha Aba : Type}
    (c : ClienteSheets Mundo Planilha Aba) (d : DadosFinanceirosUsuario)
    (spreadsheet : Planilha) (w : Mundo) :
  exists w' l,
    sem_erro l /\
    forall tela,
      compartilhar c d spreadsheet (w, tela) = (Retorna tt, (w', tela ++ l)).
Proof.
  unfold compartilhar.
  destruct (truthy (email_pessoal_usuario d)).
  - unfold tentar, liga, chama, st. cbn [fst snd].
    destruct (share c spreadsheet (email_pessoal_usuario d) "user" "writer" w)
      as [[[]|e] w'].
    + exists w'. eexists. split; [|intros tela; reflexivity].
      now apply sem_erro_um.
    + exists w'. eexists.
      split; [|intros tela; rewrite <- !app_assoc; reflexivity].
      repeat apply sem_erro_app; now apply sem_erro_um.
  - exists w. eexists. split; [|intros tela; reflexivity].
    now apply sem_erro_um.
Qed.

(** When the worksheets are written, the function returns an address. *)
Lemma escrever_abas_retorna {Mundo Planilha Aba : Type}
    (c : ClienteSheets Mundo Planilha Aba) (d : DadosFinanceirosUsuario)
    (spreadsheet : Planilha) (s s' : Mundo * list mensagem)
    (v : option string) :
  escrever_abas c d spreadsheet s = (Retorna v, s') -> exists u, v = Some u.
Proof.
  unfold escrever_abas, liga.
  destruct (atualizar_aba c spreadsheet "Resumo Geral" "200" "20" _ s)
    as [[[]|e] s2]; [|discriminate].
  destruct (atualizar_aba c spreadsheet "Gastos Detalhados" "100" "10" _ s2)
    as [[[]|e] s3]; [|discriminate].
  destruct (atualizar_aba c spreadsheet "Dívidas" "100" "10" _ s3)
    as [[[]|e] s4]; [|discriminate].
  destruct (chama (url c spreadsheet) s4) as [[u|e] s5]; [|discriminate].
  unfold retorna. intros [= <- _]. now exists u.
Qed.

Lemma tentar_publicar {Mundo Planilha Aba : Type}
    (c : ClienteSheets Mundo Planilha Aba) (d : DadosFinanceirosUsuario)
    (spreadsheet : Planilha) (w : Mundo) (tela : list mensagem) :
  exists r w' l,
    tentar (publicar c d spreadsheet) tratar_erro_geral (w, tela)
    = (Retorna r, (w', tela ++ l)) /\
    (r = None <-> exists msg, In (StError, msg) l).
Proof.
  destruct (compartilhar_casos c d spreadsheet w) as (w1 & l1 & Hl1 & E1).
  destruct (escrever_abas_acrescenta c d sem_erro spreadsheet
              sem_erro_nil sem_erro_app w1) as (r & w2 & l2 & Hl2 & E2).
  unfold tentar, publicar, liga. rewrite E1, E2, <- app_assoc.
  destruct r as [v|e].
  - exists v, w2, (l1 ++ l2). split; [reflexivity|].
    destruct (escrever_abas_retorna c d spreadsheet _ _ _ (E2 (tela ++ l1)))
      as [u ->].
    split; [discriminate|]. intros [msg Hin].
    now elim (sem_erro_app l1 l2 Hl1 Hl2 msg).
  - rewrite tratar_erro_geral_eq, <- app_assoc. eexists None, w2, _.
    split; [reflexivity|]. split; [intros _|reflexivity].
    eexists. repeat (apply in_or_app; right). now left.
Qed.

(** X15.  [gerar_planilha_google_sheets] never raises, whatever the client
    does: every exception of the service is caught.  It only adds messages
    to the page, and it returns [None] exactly when it has shown an error
    message; a returned address comes with no error message. *)
Theorem gerar_planilha_google_sheets_nao_levanta
    {Mundo Planilha Aba : Type}
    (client_sheets : option (ClienteSheets Mundo Planilha Aba))
    (d : DadosFinanceirosUsuario) (sheet_name : string) (w : Mundo)
    (tela : list mensagem) :
  exists r w' l,
    gerar_planilha_google_sheets d client_sheets sheet_name (w, tela)
    = (Retorna r, (w', tela ++ l)) /\
    (r = None <-> exists msg, In (StError, msg) l).
Proof.
  destruct client_sheets as [c|].
  - rewrite gerar_planilha_casos.
    destruct (open_ c sheet_name w) as [[spreadsheet|e] w1].
    + apply tentar_publicar.
    + assert (Ht : exists r w' l,
                 tratar_erro_geral e (w1, tela)
                 = (Retorna r, (w', tela ++ l)) /\
                 (r = None <-> exists msg, In (StError, msg) l)).
      { rewrite tratar_erro_geral_eq. eexists None, w1, _.
        split; [reflexivity|]. split; [intros _|reflexivity].
        eexists. now left. }
      destruct e as [k|msg|msg|msg|msg]; try exact Ht.
      destruct (create c sheet_name w1) as [[spreadsheet|ce] w2].
      * destruct (tentar_publicar c d spreadsheet w2
                    (tela
                     ++ [(StWarning,
                          ("Planilha '" ++ sheet_name
                           ++ "' não encontrada. Criando nova planilha...")%string);
                         (StSuccess,
                          ("Planilha '" ++ sheet_name
                           ++ "' criada com sucesso.")%string)]))
          as (r & w' & l & E & H).
        rewrite <- app_assoc in E.
        eexists r, w', _. split; [exact E|].
        rewrite H. split; intros [m Hin]; exists m.
        -- apply in_or_app. now right.
        -- apply in_app_or in Hin. destruct Hin as [Hin|Hin]; [|exact Hin].
           cbn [In] in Hin. intuition discriminate.
      * eexists None, w2, _. split; [reflexivity|].
        split; [intros _|reflexivity]. eexists. right. now left.
  - unfold gerar_planilha_google_sheets, liga, st, retorna. cbn [fst snd].
    eexists None, w, _. split; [reflexivity|].
    split; [intros _|reflexivity]. eexists. now left.
Qed.

(** X16.  The three ways the function stops before any worksheet is touched.
    Without a client, when [open] raises anything but [SpreadsheetNotFound],
    and when [open] raises [SpreadsheetNotFound] and [create] raises too, it
    returns [None], shows the messages of that case, and makes no further
    call: the world is as the last call left it. *)
Theorem gerar_planilha_google_sheets_para_cedo
    {Mundo Planilha Aba : Type} (c : ClienteSheets Mundo Planilha Aba)
    (d : DadosFinanceirosUsuario) (sheet_name : string) (w : Mundo)
    (tela : list mensagem) :
  gerar_planilha_google_sheets (Planilha:=Planilha) (Aba:=Aba) d None
    sheet_name (w, tela)
  = (Retorna None,
     (w, tela
         ++ [(StError,
              "Não foi possível gerar a planilha Google Sheets. O cliente da API não foi autenticado.")]))
  /\
  (forall e w1,
      open_ c sheet_name w = (Levanta e, w1) ->
      (forall msg, e <> SpreadsheetNotFound msg) ->
      gerar_planilha_google_sheets d (Some c) sheet_name (w, tela)
      = (Retorna None,
         (w1, tela
              ++ [(StError,
                   ("ERRO GERAL ao gerar/atualizar a planilha Google Sheets: "
                    ++ str_excecao e)%string);
                  (StWarning,
                   "Verifique as permissões da sua conta de serviço no Google Cloud Console.")])))
  /\
  (forall msg w1 create_error w2,
      open_ c sheet_name w = (Levanta (SpreadsheetNotFound msg), w1) ->
      create c sheet_name w1 = (Levanta create_error, w2) ->
      gerar_planilha_google_sheets d (Some c) sheet_name (w, tela)
      = (Retorna None,
         (w2, tela
              ++ [(StWarning,
                   ("Planilha '" ++ sheet_name
                    ++ "' não encontrada. Criando nova planilha...")%string);
                  (StError,
                   ("ERRO GRAVE: Falha ao criar a planilha '"
                    ++ sheet_name ++ "'.")%string);
                  (StError,
                   ("Detalhes do erro de criação: "
                    ++ str_excecao create_error)%string);
                  (StWarning,
                   "Causas comuns: Permissões insuficientes da conta de serviço no Google Drive para criar arquivos.")]))).
Proof.
  split; [reflexivity|]. split.
  - intros e w1 Ho Hne. rewrite gerar_planilha_casos, Ho.
    destruct e as [k|msg|msg|msg|msg]; try apply tratar_erro_geral_eq.
    now elim (Hne msg).
  - intros msg w1 ce w2 Ho Hc. now rewrite gerar_planilha_casos, Ho, Hc.
Qed.

Lemma publicar_sem_email {Mundo Planilha Aba : Type}
    (c : ClienteSheets Mundo Planilha Aba)
    (share' : Planilha -> string -> string -> string ->
              Mundo -> resposta unit * Mundo)
    (d : DadosFinanceirosUsuario) (spreadsheet : Planilha) :
  email_pessoal_usuario d = "" ->
  publicar (com_share c share') d spreadsheet = publicar c d spreadsheet.
Proof.
  intros He. unfold publicar, compartilhar. rewrite He. reflexivity.
Qed.

(** X17.  With an empty address the [share] method is never used: the
    function behaves the same, messages included, whatever that method
    does. *)
Theorem gerar_planilha_google_sheets_sem_email
    {Mundo Planilha Aba : Type} (c : ClienteSheets Mundo Planilha Aba)
    (share' : Planilha -> string -> string -> string ->
              Mundo -> resposta unit * Mundo)
    (d : DadosFinanceirosUsuario) (sheet_name : string)
    (s : Mundo * list mensagem) :
  email_pessoal_usuario d = "" ->
  gerar_planilha_google_sheets d (Some (com_share c share')) sheet_name s
  = gerar_planilha_google_sheets d (Some c) sheet_name s.
Proof.
  intros He. destruct s as [w tela]. rewrite !gerar_planilha_casos.
  change (open_ (com_share c share')) with (open_ c).
  change (create (com_share c share')) with (create c).
  destruct (open_ c sheet_name w) as [[spreadsheet|e] w1].
  - now rewrite publicar_sem_email.
  - destruct e as [k|msg|msg|msg|msg]; try reflexivity.
    destruct (create c sheet_name w1) as [[spreadsheet|ce] w2];
      [|reflexivity].
    now rewrite publicar_sem_email.
Qed.

Lemma tentar_escrever_abas_alheio {Mundo Planilha Aba : Type}
    (c : ClienteSheets Mundo Planilha Aba) (d : DadosFinanceirosUsuario)
    (spreadsheet : Planilha) (w : Mundo) (t1 t2 : list mensagem) :
  let m := tentar (escrever_abas c d spreadsheet) tratar_erro_geral in
  fst (m (w, t1)) = fst (m (w, t2)) /\
  fst (snd (m (w, t1))) = fst (snd (m (w, t2))).
Proof.
  cbv zeta.
  assert (H : acrescenta (fun _ => True)
                (tentar (escrever_abas c d spreadsheet) tratar_erro_geral)).
  { apply acrescenta_tentar; [auto| |].
    - apply escrever_abas_acrescenta; auto.
    - intros e. unfold tratar_erro_geral.
      apply acrescenta_liga; [auto|now apply acrescenta_st|intros _].
      apply acrescenta_liga; [auto|now apply acrescenta_st|intros _].
      now apply acrescenta_retorna. }
  destruct (H w) as (r & w' & l & _ & E). rewrite !E. split; reflexivity.
Qed.

(** X18.  A failure of the [share] call is not fatal.  When the spreadsheet
    opens and sharing with the user's address raises, the function returns
    the same value and leaves the same world as with a client whose [share]
    succeeds (leaving the world the failed call left); only the messages
    differ. *)
Theorem gerar_planilha_google_sheets_share_nao_fatal
    {Mundo Planilha Aba : Type} (c : ClienteSheets Mundo Planilha Aba)
    (share' : Planilha -> string -> string -> string ->
              Mundo -> resposta unit * Mundo)
    (d : DadosFinanceirosUsuario) (sheet_name : string) (w0 : Mundo)
    (tela : list mensagem) (spreadsheet : Planilha) (w w' : Mundo)
    (e : excecao) :
  email_pessoal_usuario d <> "" ->
  open_ c sheet_name w0 = (Retorna spreadsheet, w) ->
  share c spreadsheet (email_pessoal_usuario d) "user" "writer" w
  = (Levanta e, w') ->
  share' spreadsheet (email_pessoal_usuario d) "user" "writer" w
  = (Retorna tt, w') ->
  let r1 := gerar_planilha_google_sheets d (Some c) sheet_name (w0, tela) in
  let r2 := gerar_planilha_google_sheets d (Some (com_share c share'))
              sheet_name (w0, tela) in
  fst r1 = fst r2 /\ fst (snd r1) = fst (snd r2).
Proof.
  intros He Ho Hs Hs'. cbv zeta. rewrite !gerar_planilha_casos.
  change (open_ (com_share c share')) with (open_ c). rewrite Ho.
  apply truthy_true in He.
  assert (E1 : tentar (publicar c d spreadsheet) tratar_erro_geral (w, tela)
               = tentar (escrever_abas c d spreadsheet) tratar_erro_geral
                   (w', (((tela
                     ++ [(StWarning,
                          ("AVISO: Não foi possível compartilhar a planilha com "
                           ++ email_pessoal_usuario d ++ ".")%string)])
                     ++ [(StWarning,
                          ("Detalhes do erro de compartilhamento: "
                           ++ str_excecao e)%string)])
                     ++ [(StInfo,
                          "Causas comuns: Email inválido, permissões insuficientes da conta de serviço para compartilhar.")]))).
  { unfold tentar at 1 2. unfold publicar, liga at 1. unfold compartilhar.
    rewrite He. unfold tentar at 1. unfold liga at 1. unfold chama at 1.
    cbn [fst snd]. rewrite Hs. reflexivity. }
  assert (E2 : tentar (publicar (com_share c share') d spreadsheet)
                 tratar_erro_geral (w, tela)
               = tentar (escrever_abas c d spreadsheet) tratar_erro_geral
                   (w', tela
                        ++ [(StSuccess,
                             ("Planilha enviada com sucesso para o e-mail: "
                              ++ email_pessoal_usuario d ++ ".")%string)])).
  { unfold tentar at 1 2. unfold publicar, liga at 1. unfold compartilhar.
    rewrite He. unfold tentar at 1. unfold liga at 1. unfold chama at 1.
    cbn [fst snd share com_share]. rewrite Hs'. reflexivity. }
  rewrite E1, E2. apply tentar_escrever_abas_alheio.
Qed.

Lemma atualizar_aba_sucesso {Mundo Planilha Aba : Type}
    (c : ClienteSheets Mundo Planilha Aba) (spreadsheet : Planilha)
    (titulo rows cols : string) (dados : tabela) (w : Mundo)
    (tela : list mensagem) :
  (forall t r co w,
      (exists ab w', worksheet c spreadsheet t w = (Retorna ab, w')) \/
      (exists msg w1 ab w',
          worksheet c spreadsheet t w = (Levanta (WorksheetNotFound msg), w1) /\
          add_worksheet c spreadsheet t r co w1 = (Retorna ab, w'))) ->
  (forall ab w, exists w', clear c ab w = (Retorna tt, w')) ->
  (forall ab dados w, exists w', update c ab "A1" dados w = (Retorna tt, w')) ->
  exists w',
    atualizar_aba c spreadsheet titulo rows cols dados (w, tela)
    = (Retorna tt, (w', tela)).
Proof.
  intros Hws Hcl Hup.
  unfold atualizar_aba, liga, tentar, chama. cbn [fst snd].
  destruct (Hws titulo rows cols w)
    as [(ab & w1 & E)|(msg & w1 & ab & w2 & E & Ea)]; rewrite E;
    cbv beta iota; cbn [fst snd].
  - destruct (Hcl ab w1) as [w2 Ec]. rewrite Ec. cbv beta iota.
    cbn [fst snd].
    destruct (Hup ab dados w2) as [w3 Eu]. rewrite Eu. now exists w3.
  - rewrite Ea. cbv beta iota. cbn [fst snd].
    destruct (Hcl ab w2) as [w3 Ec]. rewrite Ec. cbv beta iota.
    cbn [fst snd].
    destruct (Hup ab dados w3) as [w4 Eu]. rewrite Eu. now exists w4.
Qed.

(** X19.  When the spreadsheet opens, every worksheet exists or can be
    added, and clearing, writing and reading the address succeed, the
    function returns the address the service reports and shows no error
    message, whether or not sharing with the user succeeded. *)
Theorem gerar_planilha_google_sheets_sucesso
    {Mundo Planilha Aba : Type} (c : ClienteSheets Mundo Planilha Aba)
    (d : DadosFinanceirosUsuario) (sheet_name : string) (w0 : Mundo)
    (tela : list mensagem) (spreadsheet : Planilha) (w1 : Mundo) :
  open_ c sheet_name w0 = (Retorna spreadsheet, w1) ->
  (forall t r co w,
      (exists ab w', worksheet c spreadsheet t w = (Retorna ab, w')) \/
      (exists msg w1 ab w',
          worksheet c spreadsheet t w = (Levanta (WorksheetNotFound msg), w1) /\
          add_worksheet c spreadsheet t r co w1 = (Retorna ab, w'))) ->
  (forall ab w, exists w', clear c ab w = (Retorna tt, w')) ->
  (forall ab dados w, exists w', update c ab "A1" dados w = (Retorna tt, w')) ->
  (forall w, exists u w', url c spreadsheet w = (Retorna u, w')) ->
  exists u w' l,
    gerar_planilha_google_sheets d (Some c) sheet_name (w0, tela)
    = (Retorna (Some u), (w', tela ++ l)) /\
    sem_erro l /\
    exists w5, url c spreadsheet w5 = (Retorna u, w').
Proof.
  intros Ho Hws Hcl Hup Hurl.
  rewrite gerar_planilha_casos, Ho.
  destruct (compartilhar_casos c d spreadsheet w1) as (w2 & l & Hl & E).
  unfold tentar, publicar, liga at 1. rewrite E. cbv beta iota.
  unfold escrever_abas, liga.
  destruct (atualizar_aba_sucesso c spreadsheet "Resumo Geral" "200" "20"
              (resumo_data d) w2 (tela ++ l) Hws Hcl Hup) as [w3 E3].
  rewrite E3. cbv beta iota.
  destruct (atualizar_aba_sucesso c spreadsheet "Gastos Detalhados" "100"
              "10" (gastos_rows d) w3 (tela ++ l) Hws Hcl Hup) as [w4 E4].
  rewrite E4. cbv beta iota.
  destruct (atualizar_aba_sucesso c spreadsheet "Dívidas" "100" "10"
              (dividas_rows d) w4 (tela ++ l) Hws Hcl Hup) as [w5 E5].
  rewrite E5. cbv beta iota.
  destruct (Hurl w5) as (u & w6 & Eu).
  unfold chama, retorna. cbn [fst snd]. rewrite Eu. cbv beta iota.
  exists u, w6, l. split; [reflexivity|]. split; [exact Hl|].
  now exists w5.
Qed.

(** ** The report *)

Lemma append_assoc (a b c : string) :
  ((a ++ b) ++ c)%string = (a ++ (b ++ c))%string.
Proof.
  induction a as [|x a IH]; simpl; [reflexivity|]. now rewrite IH.
Qed.

Lemma concat_snoc (sep : string) (l : list string) (x : string) :
  l <> [] ->
  String.concat sep (l ++ [x])
  = (String.concat sep l ++ sep ++ x)%string.
Proof.
  induction l as [|a r IH]; [intros H; now elim H|]. intros _.
  destruct r as [|b r'].
  - reflexivity.
  - change (String.concat sep ((a :: b :: r') ++ [x]))
      with (a ++ sep ++ String.concat sep ((b :: r') ++ [x]))%string.
    rewrite IH by discriminate.
    change (String.concat sep (a :: b :: r'))
      with (a ++ sep ++ String.concat sep (b :: r'))%string.
    now rewrite !append_assoc.
Qed.

(** X20.  [gerar_relatorio_mensal_simulado] writes the report attribute and
    nothing else, the report does not depend on the report that was there
    before (so generating it twice changes nothing), and its text ends with
    a line break followed by the feedback text as it stands at that moment,
    which is empty unless the feedback was generated first. *)
Theorem gerar_relatorio_mensal_simulado_relatorio (F : Formato)
    (d : DadosFinanceirosUsuario) :
  let d' := gerar_relatorio_mensal_simulado F d in
  set_relatorio_mensal_simulado (relatorio_mensal_simulado d) d' = d /\
  (forall x,
      gerar_relatorio_mensal_simulado F (set_relatorio_mensal_simulado x d)
      = d') /\
  gerar_relatorio_mensal_simulado F d' = d' /\
  exists antes,
    relatorio_mensal_simulado d'
    = (antes ++ nl ++ feedback_ia_comportamento d)%string.
Proof.
  cbv zeta.
  assert (Hx : forall x,
             gerar_relatorio_mensal_simulado F
               (set_relatorio_mensal_simulado x d)
             = gerar_relatorio_mensal_simulado F d)
    by (intros x; destruct d; reflexivity).
  split; [destruct d; reflexivity|]. split; [exact Hx|].
  split; [apply Hx|].
  change (relatorio_mensal_simulado (gerar_relatorio_mensal_simulado F d))
    with (String.concat nl (relatorio_parts F d)).
  unfold relatorio_parts.
  match goal with
  | |- context [String.concat nl ?l] =>
      change l with (removelast l ++ [feedback_ia_comportamento d])
  end.
  rewrite concat_snoc by discriminate. eexists. reflexivity.
Qed.

(** ** The further properties at the sample submissions *)

Lemma processar_dados_streamlit_so_positivos_exemplo :
  wf exemplo_gastos /\
  wf exemplo_patrimonio /\
  processar_dados_streamlit "ana@example.com" 5000 "Professora" 1 "CLT"
    (filter positivo exemplo_gastos) (filter positivo exemplo_patrimonio) []
  = exemplo.
Proof.
  split; [exact wf_exemplo_gastos|]. split; [exact wf_exemplo_patrimonio|].
  exact (proj1 (processar_dados_streamlit_so_positivos "ana@example.com" 5000
                  "Professora" 1 "CLT" exemplo_gastos exemplo_patrimonio []
                  wf_exemplo_gastos wf_exemplo_patrimonio)).
Defined.

Lemma classificacao_acompanha_gastos_exemplo :
  wf exemplo_gastos /\
  keys (classificacao_gastos exemplo) = keys (gastos_por_categoria exemplo).
Proof.
  split; [exact wf_exemplo_gastos|].
  exact (proj1 (classificacao_acompanha_gastos "ana@example.com" 5000
                  "Professora" 1 "CLT" exemplo_gastos exemplo_patrimonio []
                  wf_exemplo_gastos)).
Defined.

Lemma essenciais_sao_seis_categorias_exemplo :
  wf exemplo_gastos /\
  total_gastos_essenciais (analisar_fluxo_caixa exemplo)
  = sum (map snd
           (filter
              (fun kv =>
                 str_in (fst kv)
                   ["Moradia (Aluguel)"; "Alimentação";
                    "Transporte (Carro, Transporte Público, Uber...)";
                    "Saúde"; "Educação";
                    "Contas de Consumo (água, luz, gás)"]
                 && gt (snd kv) 0)
              exemplo_gastos)).
Proof.
  split; [exact wf_exemplo_gastos|].
  exact (essenciais_sao_seis_categorias "ana@example.com" 5000 "Professora" 1
           "CLT" exemplo_gastos exemplo_patrimonio [] wf_exemplo_gastos).
Defined.

Lemma gastos_rows_sem_na_exemplo :
  wf exemplo_gastos /\
  nth_error (gastos_por_categoria exemplo) 2 = Some ("Pets", 2000) /\
  exists t n,
    nth_error (gastos_rows exemplo) 3
    = Some [CTexto "Pets"; CNumero 2000; CTexto t; CTexto n] /\
    get "Pets" (classificacao_gastos exemplo)
    = Some [("tipo", t); ("natureza", n)] /\
    t <> "N/A" /\ n <> "N/A".
Proof.
  assert (Hn : nth_error (gastos_por_categoria exemplo) 2
               = Some ("Pets", 2000)) by reflexivity.
  split; [exact wf_exemplo_gastos|]. split; [exact Hn|].
  exact (gastos_rows_sem_na "ana@example.com" 5000 "Professora" 1 "CLT"
           exemplo_gastos exemplo_patrimonio [] exemplo wf_exemplo_gastos
           eq_refl eq_refl 2%nat "Pets" 2000 Hn).
Defined.

Lemma gerar_feedback_comportamento_ia_nao_falha_exemplo :
  wf exemplo_gastos /\
  exists ps,
    prompt_parts formato_de_teste exemplo = Retorna ps /\
    gerar_feedback_comportamento_ia formato_de_teste exemplo
      (modelo_de_teste true) ([], [])
    = (Retorna
         (set_feedback_ia_comportamento
            "Não foi possível gerar uma análise detalhada da IA neste momento."
            exemplo),
       (["generate_content"],
        [(StError, "Erro ao chamar a IA Generativa: 503")])).
Proof.
  split; [exact wf_exemplo_gastos|].
  destruct (gerar_feedback_comportamento_ia_nao_falha "ana@example.com" 5000
              "Professora" 1 "CLT" exemplo_gastos exemplo_patrimonio []
              formato_de_teste exemplo wf_exemplo_gastos eq_refl)
    as [ps [Hps H]].
  exists ps. split; [exact Hps|].
  exact (proj2 (H (list string) (modelo_de_teste true) [] [])
           (Excecao "503") ["generate_content"] eq_refl).
Defined.

Lemma gerar_planilha_google_sheets_sem_email_exemplo :
  email_pessoal_usuario exemplo_deficit = "" /\
  gerar_planilha_google_sheets exemplo_deficit
    (Some (com_share (cliente_de_teste None None false)
             (fun _ _ _ _ w => (Levanta (Excecao "403"), w))))
    "Painel" ([], [])
  = gerar_planilha_google_sheets exemplo_deficit
      (Some (cliente_de_teste None None false)) "Painel" ([], []).
Proof.
  split; [reflexivity|].
  exact (gerar_planilha_google_sheets_sem_email
           (cliente_de_teste None None false)
           (fun _ _ _ _ w => (Levanta (Excecao "403"), w))
           exemplo_deficit "Painel" ([], []) eq_refl).
Defined.

Lemma gerar_planilha_google_sheets_share_nao_fatal_exemplo :
  email_pessoal_usuario exemplo <> "" /\
  let c := cliente_de_teste None None true in
  let c' := com_share c (share (cliente_de_teste None None false)) in
  fst (gerar_planilha_google_sheets exemplo (Some c) "Painel" ([], []))
  = fst (gerar_planilha_google_sheets exemplo (Some c') "Painel" ([], [])) /\
  fst (snd (gerar_planilha_google_sheets exemplo (Some c) "Painel" ([], [])))
  = fst (snd (gerar_planilha_google_sheets exemplo (Some c') "Painel"
                ([], []))).
Proof.
  assert (He : email_pessoal_usuario exemplo <> "") by discriminate.
  split; [exact He|].
  exact (gerar_planilha_google_sheets_share_nao_fatal
           (cliente_de_teste None None true)
           (share (cliente_de_teste None None false))
           exemplo "Painel" [] [] "Painel" ["open"] ["open"; "share"]
           (Excecao "403") He eq_refl eq_refl eq_refl).
Defined.

Lemma gerar_planilha_google_sheets_sucesso_exemplo :
  exists u w' l,
    gerar_planilha_google_sheets exemplo
      (Some (cliente_de_teste None None true)) "Painel" ([], [])
    = (Retorna (Some u), (w', [] ++ l)) /\
    sem_erro l /\
    exists w5,
      url (cliente_de_teste None None true) "Painel" w5 = (Retorna u, w').
Proof.
  apply (gerar_planilha_google_sheets_sucesso
           (cliente_de_teste None None true) exemplo "Painel" [] []
           "Painel" ["open"] eq_refl).
  - intros t r co w. left. eexists; eexists; reflexivity.
  - intros ab w. eexists; reflexivity.
  - intros ab dados w. eexists; reflexivity.
  - intros w. eexists; eexists; reflexivity.
Defined.
